(** * irwm: a shallow embedding of the window-manager core (irwm.c)

    The development follows the layout of irwm.c: the command vocabulary
    (the [commandstring] table with [commandtostring] / [stringtocommand]),
    the override-window table, the panel registry ([paneladd],
    [panelremove], [panelenter], [panelswitch], ...) and the part of
    [main] that reacts to events and executes commands.

    Conventions.
    - A C [int] is a [Z]; the indices and counters of irwm.c stay far below
      the range of [int] (the tables hold at most 1000 entries), so no
      wrap-around is written out.  The C operator [%] truncates towards
      zero: it is [Z.rem], and a zero divisor is a fault.
    - The global arrays [panel] and [override] are lists of their full,
      fixed length; entries at and after [numpanels] (resp. [numoverride])
      are kept as the C array keeps them.  An access outside the array is a
      fault.
    - Requests sent to the X server and the diagnostics (the NOTE, WARNING
      and ERROR lines, by the fixed text of their message) are appended to
      a trace; the routine debugging lines ([panelprint], [overrideprint],
      the dump of every event) are left out.  Answers of the X server and
      of [rand()] are inputs.
    - A loop that the C code may spin in forever takes a fuel argument and
      ends in [Timeout] when the fuel is used up. *)

From stdpp Require Import base numbers list strings.
From Stdlib Require Import ZArith Lia Ascii DecimalString.

Local Open Scope Z_scope.

(** ** Results of a piece of C code *)

Inductive outcome (A : Type) : Type :=
| Ret (a : A)      (* the code returns *)
| Fault            (* undefined behaviour: bad index, division by zero *)
| Timeout.         (* the fuel of a loop is used up *)
Arguments Ret {A} a.
Arguments Fault {A}.
Arguments Timeout {A}.

Definition obind {A B} (m : outcome A) (k : A -> outcome B) : outcome B :=
  match m with
  | Ret a => k a
  | Fault => Fault
  | Timeout => Timeout
  end.

#[global] Instance outcome_bind : MBind outcome := fun A B k m => obind m k.
#[global] Instance outcome_ret : MRet outcome := @Ret.


Definition of_option {A} (o : option A) : outcome A :=
  match o with Some a => Ret a | None => Fault end.

(** [n = ((n) + (mod) + (rel)) % (mod)] *)
Definition MODULEINCREASE (n mod_ rel : Z) : outcome Z :=
  if mod_ =? 0 then Fault else Ret (Z.rem (n + mod_ + rel) mod_).

(** Reading and writing a C array held as a list. *)
Definition aget {A} (a : list A) (i : Z) : outcome A :=
  if i <? 0 then Fault else of_option (a !! Z.to_nat i).

Definition aset {A} (a : list A) (i : Z) (x : A) : outcome (list A) :=
  if (0 <=? i) && (i <? Z.of_nat (length a))
  then Ret (<[Z.to_nat i := x]> a) else Fault.

(** ** Constants of the X protocol (X.h, Xproto.h, keysymdef.h) *)

Module X11.
Definition Window := Z.
Definition None_ : Window := 0.

Definition BadWindow : Z := 3.
Definition BadAtom : Z := 5.

Definition X_GetWindowAttributes : Z := 3.
Definition X_MapWindow : Z := 8.
Definition X_ConfigureWindow : Z := 12.
Definition X_GetAtomName : Z := 17.
Definition X_ChangeProperty : Z := 18.
Definition X_SetInputFocus : Z := 42.

Definition ShiftMask : Z := 1.
Definition ControlMask : Z := 4.
Definition Mod1Mask : Z := 8.

Definition XK_VoidSymbol : Z := 0xffffff.
Definition XK_Tab : Z := 0xff09.
Definition XK_Return : Z := 0xff0d.
Definition XK_Escape : Z := 0xff1b.
Definition XK_Left : Z := 0xff51.
Definition XK_Up : Z := 0xff52.
Definition XK_Right : Z := 0xff53.
Definition XK_Down : Z := 0xff54.
Definition XK_1 : Z := 0x31.
Definition XK_c : Z := 0x63.
Definition XK_e : Z := 0x65.
Definition XK_l : Z := 0x6c.
End X11.

(** ** The command vocabulary *)

Module Command.
Import X11.

Definition NOCOMMAND : Z := 0.
Definition NEXTPANEL : Z := 1.
Definition PREVPANEL : Z := 2.
Definition RESTART : Z := 3.
Definition QUIT : Z := 4.
Definition LOGLIST : Z := 5.
Definition POSITIONFIX : Z := 6.
Definition RESIZE : Z := 7.

Definition PANELWINDOW : Z := 10.
Definition PROGSWINDOW : Z := 11.
Definition CONFIRMWINDOW : Z := 12.

Definition UPWINDOW : Z := 20.
Definition DOWNWINDOW : Z := 21.
Definition HIDEWINDOW : Z := 22.
Definition OKWINDOW : Z := 23.
Definition KOWINDOW : Z := 24.
Definition ENDWINDOW : Z := 25.

Definition NUMWINDOW (n : Z) : Z := 100 + n.

(** One row of [commandstring]; a NULL [string] is [None]. *)
Record entry := Entry {
  command : Z;
  string_ : option string;
  keysym : Z;
  modifier : Z
}.

Definition commandstring : list entry := [
  Entry NOCOMMAND (Some "NOCOMMAND") XK_VoidSymbol 0;
  Entry NEXTPANEL (Some "NEXTPANEL") XK_Right Mod1Mask;
  Entry PREVPANEL (Some "PREVPANEL") XK_Left Mod1Mask;
  Entry RESTART (Some "RESTART") XK_Tab
        (Z.lor (Z.lor ControlMask ShiftMask) Mod1Mask);
  Entry QUIT (Some "QUIT") XK_Tab (Z.lor ControlMask ShiftMask);
  Entry LOGLIST (Some "LOGLIST") XK_l (Z.lor ControlMask ShiftMask);
  Entry PANELWINDOW (Some "PANELWINDOW") XK_Tab Mod1Mask;
  Entry PROGSWINDOW (Some "PROGSWINDOW") XK_Tab ControlMask;
  Entry (-1) (Some "ENDGRAB") XK_VoidSymbol 0;
  Entry RESIZE (Some "RESIZE") XK_VoidSymbol 0;
  Entry POSITIONFIX (Some "POSITIONFIX") XK_VoidSymbol 0;
  Entry CONFIRMWINDOW (Some "CONFIRMWINDOW") XK_VoidSymbol 0;
  Entry UPWINDOW (Some "UPWINDOW") XK_Up 0;
  Entry DOWNWINDOW (Some "DOWNWINDOW") XK_Down 0;
  Entry HIDEWINDOW (Some "HIDEWINDOW") XK_Escape 0;
  Entry OKWINDOW (Some "OKWINDOW") XK_Return 0;
  Entry KOWINDOW (Some "KOWINDOW") XK_c 0;
  Entry ENDWINDOW (Some "ENDWINDOW") XK_e 0;
  Entry (NUMWINDOW 1) (Some "NUMWINDOW(1)") XK_1 0;
  Entry (NUMWINDOW 2) (Some "NUMWINDOW(2)") (XK_1 + 1) 0;
  Entry (NUMWINDOW 3) (Some "NUMWINDOW(3)") (XK_1 + 2) 0;
  Entry (NUMWINDOW 4) (Some "NUMWINDOW(4)") (XK_1 + 3) 0;
  Entry (NUMWINDOW 5) (Some "NUMWINDOW(5)") (XK_1 + 4) 0;
  Entry (NUMWINDOW 6) (Some "NUMWINDOW(6)") (XK_1 + 5) 0;
  Entry (NUMWINDOW 7) (Some "NUMWINDOW(7)") (XK_1 + 6) 0;
  Entry (NUMWINDOW 8) (Some "NUMWINDOW(8)") (XK_1 + 7) 0;
  Entry (NUMWINDOW 9) (Some "NUMWINDOW(9)") (XK_1 + 8) 0;
  Entry (-1) None XK_VoidSymbol 0;
  Entry (-1) None XK_VoidSymbol 0
].

(** [sprintf(buf, "%d", n)] *)
Definition print_d (n : Z) : string := NilEmpty.string_of_int (Z.to_int n).

(** The scan [for(i = 0; commandstring[i].string; i++)] of
    [commandtostring]: the name of the first row holding [cmd], up to the
    first row whose string is NULL. *)
Fixpoint name_scan (tbl : list entry) (cmd : Z) : option string :=
  match tbl with
  | [] => None
  | e :: tbl' =>
      match string_ e with
      | None => None
      | Some s => if command e =? cmd then Some s else name_scan tbl' cmd
      end
  end.

Definition commandtostring (cmd : Z) : string :=
  match name_scan commandstring cmd with
  | Some s => s
  | None =>
      if NUMWINDOW 0 <=? cmd
      then "NUMWINDOW(" +:+ print_d cmd +:+ ")"
      else "ERROR: no such command"
  end.

(** The scan of [stringtocommand], with [strcmp] as [String.eqb]. *)
Fixpoint id_scan (tbl : list entry) (s : string) : option Z :=
  match tbl with
  | [] => None
  | e :: tbl' =>
      match string_ e with
      | None => None
      | Some t => if String.eqb t s then Some (command e) else id_scan tbl' s
      end
  end.

(** [sscanf]: a literal of the format has to be a prefix of the input. *)
Fixpoint scan_literal (lit s : string) : option string :=
  match lit with
  | EmptyString => Some s
  | String c lit' =>
      match s with
      | String d s' => if Ascii.eqb c d then scan_literal lit' s' else None
      | EmptyString => None
      end
  end.

Definition is_space (c : ascii) : bool :=
  let n := N_of_ascii c in ((9 <=? n) && (n <=? 13) || (n =? 32))%N.

Definition digit_of (c : ascii) : option Z :=
  let n := N_of_ascii c in
  if ((48 <=? n) && (n <=? 57))%N then Some (Z.of_N n - 48) else None.

Fixpoint skip_space (s : string) : string :=
  match s with
  | String c s' => if is_space c then skip_space s' else s
  | EmptyString => s
  end.

(** The digits of a [%d] item, the value read so far in [acc]. *)
Fixpoint scan_digits (acc : Z) (s : string) : Z * string :=
  match s with
  | String c s' =>
      match digit_of c with
      | Some d => scan_digits (10 * acc + d) s'
      | None => (acc, s)
      end
  | EmptyString => (acc, s)
  end.

(** A [%d] item: white space, an optional sign, at least one digit. *)
Definition scan_d (s : string) : option (Z * string) :=
  let s := skip_space s in
  let '(neg, s) :=
    match s with
    | String "-" s' => (true, s')
    | String "+" s' => (false, s')
    | _ => (false, s)
    end in
  match s with
  | String c _ =>
      match digit_of c with
      | Some _ =>
          let '(v, rest) := scan_digits 0 s in
          Some (if neg : bool then - v else v, rest)
      | None => None
      end
  | EmptyString => None
  end.

(** [sscanf(string, "NUMWINDOW(%d%c", &i, &par) == 2], giving [i], [par] *)
Definition scan_numwindow (s : string) : option (Z * ascii) :=
  match scan_literal "NUMWINDOW(" s with
  | None => None
  | Some s1 =>
      match scan_d s1 with
      | None => None
      | Some (i, String par _) => Some (i, par)
      | Some (_, EmptyString) => None
      end
  end.

Definition stringtocommand (s : string) : Z :=
  match id_scan commandstring s with
  | Some c => c
  | None =>
      match scan_numwindow s with
      | Some (i, par) =>
          if (0 <=? i) && Ascii.eqb par ")" then NUMWINDOW i else -1
      | None => -1
      end
  end.

(** [eventtocommand]: [keycode_of] is [XKeysymToKeycode(dsp, .)]; [list]
    is the table of shortcuts, closed by [XK_VoidSymbol], or NULL. *)
Fixpoint key_scan (keycode_of : Z -> Z) (tbl : list entry)
    (keycode state : Z) : option Z :=
  match tbl with
  | [] => None
  | e :: tbl' =>
      match string_ e with
      | None => None
      | Some _ =>
          if (keycode =? keycode_of (keysym e)) && (state =? modifier e)
          then Some (command e)
          else key_scan keycode_of tbl' keycode state
      end
  end.

Fixpoint shortcut_scan (keycode_of : Z -> Z) (list_ : list Z)
    (keycode i : Z) : Z :=
  match list_ with
  | [] => NOCOMMAND
  | k :: rest =>
      if k =? XK_VoidSymbol then NOCOMMAND
      else if keycode =? keycode_of k then NUMWINDOW (i + 1)
      else shortcut_scan keycode_of rest keycode (i + 1)
  end.

Definition eventtocommand (keycode_of : Z -> Z) (keycode state : Z)
    (list_ : option (list Z)) : Z :=
  match key_scan keycode_of commandstring keycode state with
  | Some c => c
  | None =>
      match list_ with
      | None => NOCOMMAND
      | Some l => shortcut_scan keycode_of l keycode 0
      end
  end.

(** The ids of the vocabulary: the named commands of the table and the
    numbered selections [NUMWINDOW(n)], [n >= 1]. *)
Definition named_ids : list Z :=
  [NOCOMMAND; NEXTPANEL; PREVPANEL; RESTART; QUIT; LOGLIST; POSITIONFIX;
   RESIZE; PANELWINDOW; PROGSWINDOW; CONFIRMWINDOW; UPWINDOW; DOWNWINDOW;
   HIDEWINDOW; OKWINDOW; KOWINDOW; ENDWINDOW].

Definition roundtrip (cmd : Z) : Z := stringtocommand (commandtostring cmd).
End Command.


(** ** The global state of irwm.c *)

Import X11.

(** The fields of an [XWindowAttributes] that irwm.c reads. *)
Record attrs := Attrs {
  x : Z; y : Z; width : Z; height : Z; border_width : Z
}.

(** The properties written with [XChangeProperty]. *)
Inductive property :=
| net_active_window (w : Window)
| net_client_list (l : list Window)
| net_client_list_stacking (l : list Window)
| wm_state_normal.

(** What the program sends out: requests to the X server, diagnostics,
    programs started. *)
Inductive event :=
| Log (msg : string)
| XGetWindowAttributes (w : Window)
| XMoveWindow (w : Window) (x y : Z)
| XRaiseWindow (w : Window)
| XCreateSimpleWindow (p : Window) (a : attrs)
| XSelectInput (w : Window)
| XReparentWindow (w parent : Window)
| XStoreName (w : Window) (name : string)
| XDestroyWindow (w : Window)
| XMapWindow (w : Window)
| XUnmapWindow (w : Window)
| XSetWindowBorderWidth (w : Window) (b : Z)
| XMoveResizeWindow (w : Window) (x y width height : Z)
| XDeleteProperty_wm_state (w : Window)
| XChangeProperty (w : Window) (p : property)
| XSetInputFocus (w : Window)
| XClearArea (w : Window)
| XGrabKeyboard
| XUngrabKeyboard
| XKillClient (w : Window)
| XSendEvent_delete (w : Window)
| Fork (path : string).

(** An entry of [override]. *)
Record override_t := Override {
  win : Window; nx : Z; ny : Z; ontop : bool
}.

(** [struct panel] *)
Record panel_t := Panel {
  panel_ : Window;          (* container for a window *)
  content : Window;         (* a window created by some program *)
  name : option string;     (* name of the window *)
  leader : Window;          (* group leader, or None *)
  withdrawn : bool          (* content is withdrawn by program *)
}.

Definition MAXOVERRIDE : Z := 1000.
Definition UNMOVED : Z := -10000.
Definition MAXPANELS : Z := 1000.

(** The global variables, the trace of what was sent out so far and the
    number of calls of [rand()] so far. *)
Record world := World {
  override : list override_t;
  numoverride : Z;
  raiseoverride : bool;
  panel : list panel_t;
  numpanels : Z;
  numactive : Z;
  activepanel : Z;
  activecontent : Window;
  unmaponleave : bool;
  activewindow : Window;
  trace : list event;
  randcalls : nat
}.

Definition set_override v w :=
  World v (numoverride w) (raiseoverride w) (panel w) (numpanels w)
    (numactive w) (activepanel w) (activecontent w) (unmaponleave w)
    (activewindow w) (trace w) (randcalls w).
Definition set_numoverride v w :=
  World (override w) v (raiseoverride w) (panel w) (numpanels w)
    (numactive w) (activepanel w) (activecontent w) (unmaponleave w)
    (activewindow w) (trace w) (randcalls w).
Definition set_panel v w :=
  World (override w) (numoverride w) (raiseoverride w) v (numpanels w)
    (numactive w) (activepanel w) (activecontent w) (unmaponleave w)
    (activewindow w) (trace w) (randcalls w).
Definition set_numpanels v w :=
  World (override w) (numoverride w) (raiseoverride w) (panel w) v
    (numactive w) (activepanel w) (activecontent w) (unmaponleave w)
    (activewindow w) (trace w) (randcalls w).
Definition set_numactive v w :=
  World (override w) (numoverride w) (raiseoverride w) (panel w) (numpanels w)
    v (activepanel w) (activecontent w) (unmaponleave w)
    (activewindow w) (trace w) (randcalls w).
Definition set_activepanel v w :=
  World (override w) (numoverride w) (raiseoverride w) (panel w) (numpanels w)
    (numactive w) v (activecontent w) (unmaponleave w)
    (activewindow w) (trace w) (randcalls w).
Definition set_activecontent v w :=
  World (override w) (numoverride w) (raiseoverride w) (panel w) (numpanels w)
    (numactive w) (activepanel w) v (unmaponleave w)
    (activewindow w) (trace w) (randcalls w).
Definition set_activewindow v w :=
  World (override w) (numoverride w) (raiseoverride w) (panel w) (numpanels w)
    (numactive w) (activepanel w) (activecontent w) (unmaponleave w)
    v (trace w) (randcalls w).
Definition set_randcalls v w :=
  World (override w) (numoverride w) (raiseoverride w) (panel w) (numpanels w)
    (numactive w) (activepanel w) (activecontent w) (unmaponleave w)
    (activewindow w) (trace w) v.

(** Sending out: the events are appended to the trace. *)
Definition emit (evs : list event) (w : world) : world :=
  World (override w) (numoverride w) (raiseoverride w) (panel w) (numpanels w)
    (numactive w) (activepanel w) (activecontent w) (unmaponleave w)
    (activewindow w) (trace w ++ evs) (randcalls w).

Definition zero_override : override_t := Override 0 0 0 false.
Definition zero_panel : panel_t := Panel 0 0 None 0 false.

(** The state at program start: the arrays are zeroed static storage. *)
Definition initial_world (unmap : bool) : world :=
  World (replicate (Z.to_nat MAXOVERRIDE) zero_override) 0 true
        (replicate (Z.to_nat MAXPANELS) zero_panel) 0 0 (-1) None_ unmap None_
        [] 0.

(** ** Override windows *)

Module Overrides.

(** The index found by [for (i = 0; i < numoverride; i++) if
    (override[i].win == win)], with the entry. *)
Definition lookup (win0 : Window) (w : world) : option (nat * override_t) :=
  list_find (fun o => win o = win0)
            (take (Z.to_nat (numoverride w)) (override w)).

Definition overrideexists (win0 : Window) (w : world) : Z :=
  match lookup win0 w with
  | Some (i, _) => Z.of_nat i
  | None => -1
  end.

Definition overrideadd (win0 : Window) (w : world) : outcome world :=
  if MAXOVERRIDE <=? numoverride w
  then Ret (emit [Log "WARNING: too many override_redirect windows"] w)
  else
    t ← aset (override w) (numoverride w) (Override win0 UNMOVED UNMOVED false);
    Ret (set_numoverride (numoverride w + 1) (set_override t w)).

Definition overrideremove (win0 : Window) (w : world) : outcome world :=
  match lookup win0 w with
  | None => Ret w
  | Some (i, _) =>
      let n := numoverride w - 1 in
      last ← aget (override w) n;
      t ← aset (override w) (Z.of_nat i) last;
      Ret (set_override t (set_numoverride n w))
  end.

Definition overrideraise (w : world) : world :=
  if raiseoverride w then
    let tbl := take (Z.to_nat (numoverride w)) (override w) in
    let w := emit ((XRaiseWindow ∘ win) <$>
                     filter (fun o => ontop o = false) tbl) w in
    emit ((XRaiseWindow ∘ win) <$> filter (fun o => ontop o = true) tbl) w
  else w.

(** [randombetween]: [rand_ k] is the value of the call number [k] of
    [rand()]; the result comes with the number of calls made so far.  The
    divisor [d + (d < 0 ? -1 : 1)] is never zero. *)
Definition randombetween (rand_ : nat -> Z) (d c rc : Z) (k : nat) : Z * nat :=
  if (rc <=? c) && (c <=? rc + d) then (c, k)
  else if Z.rem (rand_ k) 3 =? 0 then (rc, S k)
  else if Z.rem (rand_ (S k)) 3 =? 0 then (rc + d, S (S k))
  else (rc + (Z.rem (rand_ (S (S k))) (d + (if d <? 0 then -1 else 1))
              + (if d <? 0 then d else 0)),
        S (S (S k))).

(** [overrideplace(dsp, win, rwa)]; [wa] is the answer of the X server to
    [XGetWindowAttributes(dsp, win, &wa)]. *)
Definition overrideplace (rand_ : nat -> Z) (wa rwa : attrs) (win0 : Window)
    (w : world) : world :=
  match lookup win0 w with
  | None => w
  | Some (i, o) =>
      let w := emit [XGetWindowAttributes win0] w in
      if (nx o =? x wa) && (ny o =? y wa) then w
      else
        let d := width rwa - width wa - 2 * border_width wa in
        let '(nx', k) := randombetween rand_ d (x wa) (x rwa) (randcalls w) in
        let d := height rwa - height wa - 2 * border_width wa in
        let '(ny', k) := randombetween rand_ d (y wa) (y rwa) k in
        let w := set_randcalls k
                   (set_override (<[i := Override (win o) nx' ny' (ontop o)]>
                                    (override w)) w) in
        if (nx' =? x wa) && (ny' =? y wa) then w
        else emit [XMoveWindow win0 nx' ny'] w
  end.
End Overrides.

(** ** The panels and their contents *)

Module Registry.
Import Overrides.

Definition PANEL : Z := Z.shiftl 1 0.
Definition CONTENT : Z := Z.shiftl 1 1.

(** [panelfind]: index of a panel and/or content (not found: -1) *)
Definition panelfind (p : Window) (panelorcontent : Z) (w : world) : Z :=
  match list_find
          (fun e => (Z.land panelorcontent PANEL <> 0 /\ p = panel_ e) \/
                    (Z.land panelorcontent CONTENT <> 0 /\ p = content e))
          (take (Z.to_nat (numpanels w)) (panel w)) with
  | Some (i, _) => Z.of_nat i
  | None => -1
  end.

(** [panelname]: [title] is the answer to [XGetWMName], if any. *)
Definition panelname (title : option string) : string :=
  match title with
  | None => "NoName"
  | Some t => t
  end.

(** [paneladd]: [p] is the window made by [XCreateSimpleWindow]; the result
    is the state with the value returned. *)
Definition paneladd (p : Window) (title : option string) (win0 : Window)
    (wa : attrs) (leader0 : Window) (w : world) : outcome (world * Z) :=
  if MAXPANELS <=? numpanels w then
    Ret (emit [Log "IRWM ERROR: too many open panels, not creating a new one"] w,
         -1)
  else
    let e := panelfind win0 (Z.lor PANEL CONTENT) w in
    if negb (e =? -1) then
      Ret (emit [Log "IRWM NOTE: window already exists"] w, e)
    else
      let w := emit [XCreateSimpleWindow p wa; XSelectInput p;
                     XReparentWindow win0 p;
                     XStoreName p ("irwm panel #" +:+
                                   Command.print_d (numpanels w))] w in
      t ← aset (panel w) (numpanels w)
            (Panel p win0 (Some (panelname title)) leader0 false);
      Ret (set_numpanels (numpanels w + 1)
             (set_numactive (numactive w + 1) (set_panel t w)),
           numpanels w).

(** The loop [do { MODULEINCREASE(activepanel, numpanels, rel); } while
    (panel[activepanel].withdrawn);] of [panelswitch] and [panelremove]. *)
Fixpoint skip_withdrawn (fuel : nat) (rel : Z) (w : world) : outcome world :=
  match fuel with
  | O => Timeout
  | S fuel' =>
      a ← MODULEINCREASE (activepanel w) (numpanels w) rel;
      let w := set_activepanel a w in
      e ← aget (panel w) a;
      if withdrawn e then skip_withdrawn fuel' rel w else Ret w
  end.

(** [if (j != i) panel[j] = panel[i]; j++;] *)
Definition copy_down (i j : Z) (w : world) : outcome (world * Z) :=
  if j =? i then Ret (w, j + 1)
  else
    e ← aget (panel w) i;
    t ← aset (panel w) j e;
    Ret (set_panel t w, j + 1).

Definition set_withdrawn (b : bool) (e : panel_t) : panel_t :=
  Panel (panel_ e) (content e) (name e) (leader e) b.

(** The body of the loop of [panelremove] for the index [i]; [c] is the
    content of the panel to remove, [j] the index the next panel kept is
    moved to; the result carries the next [j]. *)
Definition remove_body (fuel : nat) (pn : Z) (c : Window) (destroy : bool)
    (i j : Z) (w : world) : outcome (world * Z) :=
  e ← aget (panel w) i;
  if (i =? pn) || (leader e =? c) then
    let w := if withdrawn e then w else set_numactive (numactive w - 1) w in
    w ← (if destroy then
           Ret (set_numpanels (numpanels w - 1)
                  (emit [XDestroyWindow (panel_ e)] w))
         else if withdrawn e then Ret w
         else
           t ← aset (panel w) i (set_withdrawn true e);
           Ret (set_panel t (emit [XUnmapWindow (panel_ e)] w)));
    w ← (if (activepanel w =? j) && (0 <? numactive w)
         then skip_withdrawn fuel (-1) w else Ret w);
    if destroy then
      Ret (if j <? activepanel w
           then set_activepanel (activepanel w - 1) w else w, j)
    else copy_down i j w
  else copy_down i j w.

(** [for (i = ...; i < n; i++)], with [count] iterations left. *)
Fixpoint remove_loop (fuel : nat) (pn : Z) (c : Window) (destroy : bool)
    (count : nat) (i j : Z) (w : world) : outcome (world * Z) :=
  match count with
  | O => Ret (w, j)
  | S count' =>
      '(w, j) ← remove_body fuel pn c destroy i j w;
      remove_loop fuel pn c destroy count' (i + 1) j w
  end.

(** [panelremove]: the state with the value returned. *)
Definition panelremove (fuel : nat) (pn : Z) (destroy : bool) (w : world)
    : outcome (world * Z) :=
  if (pn <? 0) || (numpanels w <=? pn) then Ret (w, -1)
  else
    e ← aget (panel w) pn;
    let c := content e in
    let w := if c =? activecontent w then set_activecontent None_ w else w in
    '(w, _) ← remove_loop fuel pn c destroy (Z.to_nat (numpanels w)) 0 0 w;
    Ret (if numactive w =? 0 then set_activepanel (-1) w else w, 0).

Definition panelswap (pn1 pn2 : Z) (w : world) : outcome (world * Z) :=
  if (pn1 =? -1) || (numpanels w - 2 <? pn1) then Ret (w, -1)
  else if (pn2 =? -1) || (numpanels w - 1 <? pn2) then Ret (w, -1)
  else
    temp ← aget (panel w) pn2;
    e1 ← aget (panel w) pn1;
    t ← aset (panel w) pn2 e1;
    t ← aset t pn1 temp;
    Ret (set_panel t w, 0).

Definition panelresize (pn : Z) (base : attrs) (w : world) : outcome world :=
  if activepanel w =? -1 then Ret w
  else
    e ← aget (panel w) pn;
    Ret (emit [XSetWindowBorderWidth (content e) 0;
               XMoveResizeWindow (content e) 0 0 (width base) (height base)] w).

Definition panelleave (w : world) : outcome world :=
  if activepanel w =? -1 then Ret w
  else if negb (unmaponleave w) then Ret w
  else
    e ← aget (panel w) (activepanel w);
    Ret (emit [XUnmapWindow (panel_ e); XUnmapWindow (content e);
               XDeleteProperty_wm_state (content e)] w).

(** The contents of the panels at the indices [idx]. *)
Fixpoint contents_at (a : list panel_t) (idx : list Z) : outcome (list Window) :=
  match idx with
  | [] => Ret []
  | i :: idx' =>
      e ← aget a i;
      l ← contents_at a idx';
      Ret (content e :: l)
  end.

(** [clientlistupdate]; [root] is the root window. *)
Definition clientlistupdate (root : Window) (w : world) : outcome world :=
  let idx := seqZ 0 (numpanels w) in
  list_ ← contents_at (panel w) idx;
  slist ← contents_at (panel w)
            ((fun i => Z.rem (activepanel w + 1 + i) (numpanels w)) <$> idx);
  Ret (emit [XChangeProperty root (net_active_window (activewindow w));
             XChangeProperty root (net_client_list list_);
             XChangeProperty root (net_client_list_stacking slist)] w).

Definition panelenter (root : Window) (w : world) : outcome world :=
  if activepanel w =? -1 then
    clientlistupdate root (set_activecontent None_ w)
  else if numpanels w <=? activepanel w then
    Ret (emit [Log "WARNING: activepanel not less than numpanels"] w)
  else
    e ← aget (panel w) (activepanel w);
    w ← (if withdrawn e then
           t ← aset (panel w) (activepanel w) (set_withdrawn false e);
           Ret (set_numactive (numactive w + 1) (set_panel t w))
         else Ret w);
    if activecontent w =? content e then
      Ret (emit [Log "NOTE: active content already active"] w)
    else
      let w := set_activewindow (content e) (set_activecontent (content e) w) in
      w ← clientlistupdate root w;
      let w := emit [XMapWindow (content e); XMapWindow (panel_ e);
                     XRaiseWindow (panel_ e)] w in
      let w := overrideraise w in
      Ret (emit [XChangeProperty (content e) wm_state_normal;
                 XSetInputFocus (content e)] w).

(** [panelswitch]: the state with the value returned. *)
Definition panelswitch (fuel : nat) (root : Window) (rel : Z) (w : world)
    : outcome (world * Z) :=
  if activepanel w =? -1 then Ret (w, -1)
  else
    w ← panelleave w;
    w ← skip_withdrawn fuel rel w;
    w ← panelenter root w;
    Ret (w, 0).

(** The panels of the registry: the first [numpanels] entries of the
    array. *)
Definition panels (w : world) : list panel_t :=
  take (Z.to_nat (numpanels w)) (panel w).

Definition live (e : panel_t) : bool := negb (withdrawn e).
End Registry.

(** ** The main loop: events and commands *)

Module Dispatch.
Import Command Overrides Registry.

(** An entry of [programs]; a NULL pointer is [None]. *)
Record program_t := Program {
  title : option string;
  program : option string
}.

Definition MAXPROGRAMS : Z := 100.

(** What is fixed once the main loop starts: the options, the program list,
    the geometry, the windows of the three lists; [deletes win] tells
    whether [XGetWMProtocols] lists WM_DELETE_WINDOW for [win]. *)
Record config := Config {
  singlekey : bool;
  confirmquit : bool;
  quitonlastclose : bool;
  programs : list program_t;
  numprograms : Z;
  rwa : attrs;
  root : Window;
  panelwindow : Window;
  progswindow : Window;
  confirmwindow : Window;
  deletes : Window -> bool
}.

(** The variables of [main] that the loop changes. *)
Record locals := Locals {
  showpanel : bool;
  showprogs : bool;
  showconfirm : bool;
  progselected : Z;
  confirmselected : Z;
  overridefix : bool;
  run : bool;
  restart : bool
}.

Definition set_showpanel v l :=
  Locals v (showprogs l) (showconfirm l) (progselected l) (confirmselected l)
    (overridefix l) (run l) (restart l).
Definition set_showprogs v l :=
  Locals (showpanel l) v (showconfirm l) (progselected l) (confirmselected l)
    (overridefix l) (run l) (restart l).
Definition set_showconfirm v l :=
  Locals (showpanel l) (showprogs l) v (progselected l) (confirmselected l)
    (overridefix l) (run l) (restart l).
Definition set_progselected v l :=
  Locals (showpanel l) (showprogs l) (showconfirm l) v (confirmselected l)
    (overridefix l) (run l) (restart l).
Definition set_confirmselected v l :=
  Locals (showpanel l) (showprogs l) (showconfirm l) (progselected l) v
    (overridefix l) (run l) (restart l).
Definition set_overridefix v l :=
  Locals (showpanel l) (showprogs l) (showconfirm l) (progselected l)
    (confirmselected l) v (run l) (restart l).
Definition set_run v l :=
  Locals (showpanel l) (showprogs l) (showconfirm l) (progselected l)
    (confirmselected l) (overridefix l) v (restart l).
Definition set_restart v l :=
  Locals (showpanel l) (showprogs l) (showconfirm l) (progselected l)
    (confirmselected l) (overridefix l) (run l) v.

(** The variables as [main] initialises them. *)
Definition initial_locals (fix_ : bool) : locals :=
  Locals false false false 0 0 fix_ true false.

(** The state of the loop: the variables of [main] and the globals. *)
Definition state : Type := locals * world.

(** *** The error event *)

Record XErrorEvent := ErrorEvent {
  error_code : Z;
  request_code : Z;
  resourceid : Z
}.

Inductive disposition :=
| Swallowed      (* a note is logged, the loop goes on *)
| Forwarded.     (* [defaulthandler(dsp, &err)] *)

(** [case Error:] of the switch on the type of the event *)
Definition on_Error (err : XErrorEvent) (w : world) : world * disposition :=
  if (error_code err =? BadWindow) &&
     ((request_code err =? X_MapWindow) ||
      (request_code err =? X_ChangeProperty) ||
      (request_code err =? X_SetInputFocus) ||
      (request_code err =? X_ConfigureWindow) ||
      (request_code err =? X_GetWindowAttributes))
  then (emit [Log "NOTE: ignoring a BadWindow error"] w, Swallowed)
  else if (error_code err =? BadAtom) && (request_code err =? X_GetAtomName)
  then (emit [Log "NOTE: ignoring a BadAtom error on a X_GetAtomName request"] w,
        Swallowed)
  else (w, Forwarded).

(** *** Helpers of the loop *)

Definition raiselists (cfg : config) (w : world) : world :=
  emit [XClearArea (panelwindow cfg); XRaiseWindow (panelwindow cfg);
        XRaiseWindow (confirmwindow cfg); XRaiseWindow (progswindow cfg)] w.

Definition closewindow (cfg : config) (win0 : Window) (w : world) : world :=
  if deletes cfg win0 then emit [XSendEvent_delete win0] w
  else emit [XKillClient win0] w.

(** [forkprogram(path, NULL)], in the parent process *)
Definition forkprogram (path : option string) (w : world) : world :=
  match path with
  | None => w
  | Some p => emit [Fork p] w
  end.

(** *** Events on windows *)

(** [case ConfigureNotify:] with the answer [wa] of the server, should
    [overrideplace] ask for the attributes of the window *)
Definition on_ConfigureNotify (rand_ : nat -> Z) (cfg : config) (wa : attrs)
    (window : Window) (s : state) : state :=
  let '(l, w) := s in
  if overridefix l then (l, overrideplace rand_ wa (rwa cfg) window w) else s.

(** [case CreateNotify:] *)
Definition on_CreateNotify (window : Window) (override_redirect : bool)
    (s : state) : outcome state :=
  let '(l, w) := s in
  if override_redirect then w ← overrideadd window w; Ret (l, w) else Ret s.

(** [case MapRequest:]; [tran] is the window of the transient-for hint, if
    any, [p] and [title] are the inputs of [paneladd]. *)
Definition on_MapRequest (cfg : config) (p : Window) (title : option string)
    (window : Window) (tran : option Window) (s : state) : outcome state :=
  let '(l, w) := s in
  '(w, pn) ← paneladd p title window (rwa cfg) (default None_ tran) w;
  if pn =? -1 then Ret (l, w)
  else
    w ← (if negb (activepanel w =? -1) then panelleave w else Ret w);
    let w := set_activepanel pn w in
    w ← panelresize pn (rwa cfg) w;
    w ← panelenter (root cfg) w;
    Ret (l, raiselists cfg w).

(** What [DestroyNotify] and a synthetic [UnmapNotify] do once the panel is
    removed; the flag tells that the case was left by [break] with [run]
    cleared. *)
Definition after_remove (cfg : config) (s : state) : outcome (state * bool) :=
  let '(l, w) := s in
  if 0 <? numactive w then
    w ← panelenter (root cfg) w;
    Ret (l, raiselists cfg w, false)
  else if (numpanels w =? 0) && quitonlastclose cfg then
    Ret (set_run false l, w, true)
  else
    w ← clientlistupdate (root cfg) (set_activepanel (-1) w);
    Ret (l, raiselists cfg (emit [XSetInputFocus (root cfg)] w), false).

(** [case DestroyNotify:]; [event_] is the parent of the window destroyed. *)
Definition on_DestroyNotify (fuel : nat) (cfg : config)
    (window event_ : Window) (s : state) : outcome state :=
  let '(l, w) := s in
  w ← overrideremove window w;
  let pn := panelfind event_ PANEL w in
  if pn =? -1 then Ret (l, w)
  else
    '(w, _) ← panelremove fuel pn true w;
    '(s, _) ← after_remove cfg (l, w);
    Ret s.

(** [case MapNotify:] with the answer [wa] of the server for
    [overrideplace] *)
Definition on_MapNotify (rand_ : nat -> Z) (cfg : config) (wa : attrs)
    (window : Window) (s : state) : outcome state :=
  let '(l, w) := s in
  let pn := panelfind window CONTENT w in
  let w := if (pn =? -1) && overridefix l
           then overrideplace rand_ wa (rwa cfg) window w else w in
  if (pn =? -1) || (pn =? activepanel w) then Ret (l, w)
  else
    w ← panelleave w;
    w ← panelenter (root cfg) (set_activepanel pn w);
    Ret (l, raiselists cfg w).

(** The end of [case UnmapNotify:]: the panel of the leader is entered. *)
Definition enter_leader (cfg : config) (pn : Z) (s : state) : outcome state :=
  let '(l, w) := s in
  e ← aget (panel w) pn;
  if leader e =? None_ then Ret (l, w)
  else
    let pn := panelfind (leader e) CONTENT w in
    if (pn =? -1) || (pn =? activepanel w) then Ret (l, w)
    else
      w ← panelleave w;
      w ← panelenter (root cfg) (set_activepanel pn w);
      Ret (l, raiselists cfg w).

(** [case UnmapNotify:] *)
Definition on_UnmapNotify (fuel : nat) (cfg : config) (window : Window)
    (send_event : bool) (s : state) : outcome state :=
  let '(l, w) := s in
  let pn := panelfind window CONTENT w in
  if pn =? -1 then Ret s
  else if send_event then
    '(w, _) ← panelremove fuel pn false w;
    '(s, broke) ← after_remove cfg (l, w);
    if broke : bool then Ret s else enter_leader cfg pn s
  else enter_leader cfg pn s.

(** *** Commands *)

(** The number of panels before the active one that are not withdrawn:
    [for (i = 0; i < activepanel; i++) if (! panel[i].withdrawn) j++;] *)
Definition live_before (w : world) : Z :=
  Z.of_nat (length (filter (fun e => live e = true)
                           (take (Z.to_nat (activepanel w)) (panel w)))).

(** The four tests on the command at the head of the loop. *)
Definition toggle (cfg : config) (l : locals) (command : Z) : Z :=
  let command :=
    if (command =? PANELWINDOW) && showpanel l
    then (if singlekey cfg then PROGSWINDOW else HIDEWINDOW) else command in
  let command :=
    if (command =? PANELWINDOW) && showprogs l && singlekey cfg
    then HIDEWINDOW else command in
  let command :=
    if (command =? PROGSWINDOW) && showprogs l then HIDEWINDOW else command in
  if (command =? CONFIRMWINDOW) && showconfirm l then HIDEWINDOW else command.

(** How an iteration of [while (command != NOCOMMAND)] ends: at its end,
    where the command becomes [NOCOMMAND], or by [continue] with the command
    that is then the current one. *)
Inductive ending :=
| Finished
| Continue (command : Z).

(** [case QUIT:], reached from [case RESTART:] as well *)
Definition do_quit (cfg : config) (s : state) : state :=
  let '(l, w) := s in
  if negb (confirmquit cfg) || (numpanels w =? 0) then (set_run false l, w)
  else
    (set_confirmselected 0 (set_showconfirm true l),
     emit [XMapWindow (confirmwindow cfg); XGrabKeyboard] w).

(** [case UPWINDOW: case DOWNWINDOW:] with [i] the direction *)
Definition do_updown (fuel : nat) (cfg : config) (i : Z) (s : state)
    : outcome state :=
  let '(l, w) := s in
  w ← (if showpanel l then
         '(w, _) ← panelswitch fuel (root cfg) i w;
         Ret (emit [XClearArea (panelwindow cfg);
                    XRaiseWindow (panelwindow cfg)] w)
       else Ret w);
  '(l, w) ← (if showprogs l then
               n ← MODULEINCREASE (progselected l) (numprograms cfg) i;
               Ret (set_progselected n l, emit [XClearArea (progswindow cfg)] w)
             else Ret (l, w));
  if showconfirm l then
    n ← MODULEINCREASE (confirmselected l) 2 i;
    Ret (set_confirmselected n l, emit [XClearArea (confirmwindow cfg)] w)
  else Ret (l, w).

(** [strcmp(t, name)] on a title that may be NULL *)
Definition title_is (t : option string) (name : string) : outcome bool :=
  match t with
  | None => Fault
  | Some t => Ret (String.eqb t name)
  end.

(** The program list closes on [OKWINDOW]: the entry selected is run, or
    names a command. *)
Definition do_ok_progs (cfg : config) (s : state) : outcome (state * ending) :=
  let '(l, w) := s in
  e ← aget (programs cfg) (progselected l);
  match program e with
  | Some p => Ret (l, forkprogram (Some p) w, Finished)
  | None =>
      b ← title_is (title e) "resize";
      if b : bool then Ret (s, Continue RESIZE) else
      b ← title_is (title e) "loglist";
      if b : bool then Ret (s, Continue LOGLIST) else
      b ← title_is (title e) "positionfix";
      if b : bool then Ret (s, Continue POSITIONFIX) else
      b ← title_is (title e) "restart";
      if b : bool then Ret (s, Continue RESTART) else
      b ← title_is (title e) "quit";
      if b : bool then Ret (s, Continue QUIT) else
      Ret (s, Finished)
  end.

(** [case HIDEWINDOW: case OKWINDOW:] *)
Definition do_hide_ok (cfg : config) (command : Z) (s : state)
    : outcome (state * ending) :=
  let '(l, w) := s in
  if showpanel l then
    Ret (set_showpanel false l,
         emit [XUnmapWindow (panelwindow cfg); XUngrabKeyboard] w, Finished)
  else if showprogs l then
    let l := set_showprogs false l in
    let w := emit [XUnmapWindow (progswindow cfg); XUngrabKeyboard] w in
    if command =? HIDEWINDOW then Ret (l, w, Finished)
    else do_ok_progs cfg (l, w)
  else if showconfirm l then
    let l := set_showconfirm false l in
    let w := emit [XUngrabKeyboard; XUnmapWindow (confirmwindow cfg)] w in
    if command =? HIDEWINDOW then Ret (l, w, Finished)
    else if confirmselected l =? 0 then Ret (set_run false l, w, Finished)
    else Ret (set_showconfirm false l, w, Finished)
  else Ret (s, Finished).

(** [panelswap(i, i + 1)] for [i] from [activepanel] to [numpanels - 2] *)
Fixpoint swap_to_end (count : nat) (i : Z) (w : world) : outcome world :=
  match count with
  | O => Ret w
  | S count' =>
      '(w, _) ← panelswap i (i + 1) w;
      swap_to_end count' (i + 1) w
  end.

(** [case ENDWINDOW:] *)
Definition do_end (cfg : config) (s : state) : outcome state :=
  let '(l, w) := s in
  if showpanel l && negb (activepanel w =? -1) &&
     (activepanel w <? numpanels w - 1) then
    w ← swap_to_end (Z.to_nat (numpanels w - 1 - activepanel w))
          (activepanel w) w;
    Ret (l, emit [XClearArea (panelwindow cfg);
                  XRaiseWindow (panelwindow cfg)]
              (set_activepanel (numpanels w - 1) w))
  else Ret s.

(** The part "show/remove lists" at the end of an iteration. *)
Definition show_lists (cfg : config) (s : state) : state :=
  let '(l, w) := s in
  let w := emit [if showpanel l then XMapWindow (panelwindow cfg)
                 else XUnmapWindow (panelwindow cfg)] w in
  let w := emit [if showprogs l then XMapWindow (progswindow cfg)
                 else XUnmapWindow (progswindow cfg)] w in
  let w := emit [if showconfirm l then XMapWindow (confirmwindow cfg)
                 else XUnmapWindow (confirmwindow cfg)] w in
  if showpanel l || showprogs l || showconfirm l
  then (l, emit [XGrabKeyboard] w) else (l, w).

(** [switch (command)] *)
Definition execute (fuel : nat) (cfg : config) (command : Z) (s : state)
    : outcome (state * ending) :=
  let '(l, w) := s in
  let finish (o : outcome state) : outcome (state * ending) :=
    s ← o; Ret (s, Finished) in
  if (command =? NEXTPANEL) || (command =? PREVPANEL) then
    '(w, _) ← panelswitch fuel (root cfg)
                (if command =? PREVPANEL then -1 else 1) w;
    Ret (l, raiselists cfg w, Finished)
  else if command =? RESTART then
    Ret (do_quit cfg (set_restart true l, w), Finished)
  else if command =? QUIT then Ret (do_quit cfg s, Finished)
  else if command =? PANELWINDOW then
    Ret (set_showconfirm false (set_showprogs false (set_showpanel true l)), w,
         Finished)
  else if command =? PROGSWINDOW then
    Ret (set_showconfirm false (set_showpanel false (set_showprogs true l)), w,
         Finished)
  else if command =? CONFIRMWINDOW then
    Ret (set_showprogs false (set_showpanel false (set_showconfirm true l)), w,
         Finished)
  else if (command =? UPWINDOW) || (command =? DOWNWINDOW) then
    finish (do_updown fuel cfg (if command =? UPWINDOW then -1 else 1) s)
  else if (command =? HIDEWINDOW) || (command =? OKWINDOW) then
    do_hide_ok cfg command s
  else if command =? KOWINDOW then
    if showpanel l && negb (activepanel w =? -1) then
      e ← aget (panel w) (activepanel w);
      Ret (l, closewindow cfg (content e) w, Finished)
    else Ret (s, Finished)
  else if command =? ENDWINDOW then finish (do_end cfg s)
  else if command =? RESIZE then
    w ← panelresize (activepanel w) (rwa cfg) w;
    Ret (l, w, Finished)
  else if command =? POSITIONFIX then
    Ret (set_overridefix (negb (overridefix l)) l, w, Finished)
  else Ret (s, Finished).

(** The part "commands in lists": a numbered selection moves the selection;
    [OKWINDOW] is then the command, unless the iteration ends by
    [continue]. *)
Definition numbered (fuel : nat) (cfg : config) (command : Z) (s : state)
    : outcome (state * ending) :=
  let '(l, w) := s in
  if showpanel l && (activepanel w =? -1) then Ret (s, Continue command)
  else
    w ← (if showpanel l then
           '(w, _) ← panelswitch fuel (root cfg)
                       (command - NUMWINDOW 1 - live_before w) w;
           Ret (emit [XClearArea (panelwindow cfg);
                      XRaiseWindow (panelwindow cfg)] w)
         else Ret w);
    l ← (if showprogs l then
           let l := set_progselected (command - NUMWINDOW 1) l in
           _ ← aget (programs cfg) (progselected l);
           Ret l
         else Ret l);
    Ret (l, w, Finished).

(** [switch (command)] and what follows it in the iteration. *)
Definition execute_show (fuel : nat) (cfg : config) (command : Z) (s : state)
    : outcome (state * ending) :=
  '(s, e) ← execute fuel cfg command s;
  match e with
  | Finished => Ret (show_lists cfg s, Finished)
  | Continue c => Ret (s, Continue c)
  end.

(** One iteration of [while (command != NOCOMMAND)]. *)
Definition command_step (fuel : nat) (cfg : config) (command : Z) (s : state)
    : outcome (state * ending) :=
  let command := toggle cfg (fst s) command in
  if NUMWINDOW 1 <=? command then
    '(s, e) ← numbered fuel cfg command s;
    match e with
    | Finished => execute_show fuel cfg OKWINDOW s
    | Continue c => Ret (s, Continue c)
    end
  else execute_show fuel cfg command s.

(** [while (command != NOCOMMAND) { ... }]; the fuel bounds the iterations
    as well. *)
Fixpoint command_loop (fuel : nat) (cfg : config) (command : Z) (s : state)
    : outcome state :=
  if command =? NOCOMMAND then Ret s
  else
    match fuel with
    | O => Timeout
    | S fuel' =>
        '(s, e) ← command_step fuel cfg command s;
        match e with
        | Finished => Ret s
        | Continue c => command_loop fuel' cfg c s
        end
    end.

(** The commands [cs] executed one after the other, each one the command
    of an event of its own. *)
Fixpoint commands (fuel : nat) (cfg : config) (cs : list Z) (s : state)
    : outcome state :=
  match cs with
  | [] => Ret s
  | c :: cs' =>
      s ← command_loop fuel cfg c s;
      commands fuel cfg cs' s
  end.
End Dispatch.

(** ** Notions used to state the properties *)

Module Spec.
Import Overrides Registry Dispatch.

(** The number of panels that are not withdrawn. *)
Definition live_count (w : world) : Z :=
  Z.of_nat (length (filter (fun e => live e = true) (panels w))).

(** The arrays have their declared size and the counters are within. *)
Definition wf (w : world) : Prop :=
  Z.of_nat (length (panel w)) = MAXPANELS /\
  0 <= numpanels w <= MAXPANELS.

(** The number of entries a list shows: the panels not withdrawn in the
    panel list, the programs in the program list. *)
Definition entries_panels (w : world) : Z := live_count w.
Definition entries_progs (cfg : config) : Z := numprograms cfg.

(** The X server carrying out the moves among [evs] on the window [win0]
    whose geometry was [wa]. *)
Definition moved (win0 : Window) (evs : list event) (wa : attrs) : attrs :=
  foldl (fun a e =>
           match e with
           | XMoveWindow v x' y' =>
               if v =? win0
               then Attrs x' y' (width a) (height a) (border_width a) else a
           | _ => a
           end) wa evs.

(** The cached target position of [win0]. *)
Definition cached (win0 : Window) (w : world) : option (Z * Z) :=
  match lookup win0 w with
  | Some (_, o) => Some (nx o, ny o)
  | None => None
  end.

Definition is_move (e : event) : bool :=
  match e with XMoveWindow _ _ _ => true | _ => false end.

(** The number of indices [i] among [lo], ..., [lo + len - 1] with [f i]. *)
Fixpoint count (f : Z -> bool) (lo : Z) (len : nat) : nat :=
  match len with
  | O => O
  | S len' => (if f lo then 1 else 0) + count f (lo + 1) len'
  end.

(** The panel of index [i] is registered and not withdrawn. *)
Definition live_at (w : world) (i : Z) : bool :=
  if i <? 0 then false
  else match panels w !! Z.to_nat i with
       | Some e => live e
       | None => false
       end.

(** [t] is the number of steps in direction [rel] from the index [a] to the
    first panel that is not withdrawn. *)
Definition first_live (w : world) (rel a t : Z) : Prop :=
  1 <= t /\
  live_at w ((a + rel * t) mod numpanels w) = true /\
  forall e, 1 <= e < t -> live_at w ((a + rel * e) mod numpanels w) = false.

(** [panelswitch(dsp, root, 1)] called [m] times in a row. *)
Fixpoint switches (fuel : nat) (root : Window) (m : nat) (w : world)
    : outcome world :=
  match m with
  | O => Ret w
  | S m' =>
      '(w, _) ← panelswitch fuel root 1 w;
      switches fuel root m' w
  end.

(** The counter [numactive] is the number of panels not withdrawn. *)
Definition numactive_ok (w : world) : Prop :=
  wf w /\ numactive w = live_count w.


(** The number of panels of a list that are not withdrawn. *)
Abbreviation lives l :=
  (Z.of_nat (length (filter (fun e => live e = true) l))).




(** No registered panel is withdrawn. *)
Definition all_live (w : world) : Prop :=
  forall i, 0 <= i < numpanels w -> live_at w i = true.

(** The registry part of the state. *)
Definition registry (w : world) : list panel_t * Z * Z * Z :=
  (panel w, numpanels w, numactive w, activepanel w).

(** The requests that fail on a window destroyed in the meantime. *)
Definition stale_requests : list Z :=
  [X_MapWindow; X_ChangeProperty; X_SetInputFocus; X_ConfigureWindow;
   X_GetWindowAttributes].

(** The errors the loop puts up with. *)
Definition benign (err : XErrorEvent) : Prop :=
  (error_code err = BadWindow /\ request_code err ∈ stale_requests) \/
  (error_code err = BadAtom /\ request_code err = X_GetAtomName).

(** The lines logged when a table is full. *)
Definition full_override_note : event :=
  Log "WARNING: too many override_redirect windows".
Definition full_panels_note : event :=
  Log "IRWM ERROR: too many open panels, not creating a new one".

End Spec.

(** ** Concrete states *)

Module Examples.
Import Registry.

(** A registry holding the panels [ps], the panel [active] being entered. *)
Definition registry_of (ps : list panel_t) (active : Z) : world :=
  World (replicate (Z.to_nat MAXOVERRIDE) zero_override) 0 true
        (ps ++ replicate (Z.to_nat MAXPANELS - length ps) zero_panel)
        (Z.of_nat (length ps))
        (Z.of_nat (length (filter (fun e => live e = true) ps)))
        active
        (match ps !! Z.to_nat active with Some e => content e | None => None_ end)
        false
        (match ps !! Z.to_nat active with Some e => content e | None => None_ end)
        [] 0.

(** Three windows A, B, C in their panels 11, 12, 13. *)
Definition pA : panel_t := Panel 11 1 (Some "A") None_ false.
Definition pB : panel_t := Panel 12 2 (Some "B") None_ false.
Definition pC : panel_t := Panel 13 3 (Some "C") None_ false.

(** A dialog D, transient for the window B, withdrawn by its program. *)
Definition pD : panel_t := Panel 14 4 (Some "D") 2 true.

(** The registry A, D, C with A entered: two panels are live. *)
Definition world_three : world := registry_of [pA; pD; pC] 0.

(** The registry D, B, C with B entered, and what [panelremove] makes of it
    when it comes to the panel B in the loop over the panels, asked to
    destroy B: D is destroyed as B is its leader, [numpanels] and
    [activepanel] have been decreased for it, and then for B. *)
Definition world_dialog : world := registry_of [pD; pB; pC] 1.

Definition world_dialog_mid : world :=
  World (override world_dialog) 0 true (panel world_dialog) 1 1 0 None_ false 2
        [XDestroyWindow 14; XDestroyWindow 12] 0.

(** The program list of a session without configuration file, the arrays
    of [main] zeroed after it; no option is set but the one given. *)
Definition progs_default : list Dispatch.program_t :=
  [Dispatch.Program (Some "xterm") (Some "/usr/bin/xterm");
   Dispatch.Program (Some "quit") None] ++
  replicate 98 (Dispatch.Program None None).

Definition config_of (confirm : bool) : Dispatch.config :=
  Dispatch.Config false confirm false progs_default 2
    (Attrs 0 0 800 600 0) 100 101 102 103 (fun _ => true).

(** The panels A and B, A entered; the variables of the loop when the
    panel list is shown, and when the program list is. *)
Definition world_AB : world := registry_of [pA; pB] 0.
Definition panel_list : Dispatch.locals :=
  Dispatch.Locals true false false 0 0 false true false.
Definition progs_list : Dispatch.locals :=
  Dispatch.Locals false true false 0 0 false true false.

(** A session: the dialog D, transient for B, asks to be mapped, then the
    windows B and C; D withdraws itself (a synthetic UnmapNotify), upon
    which the panel of its leader B is entered. *)
Definition session_dialog : outcome (Dispatch.locals * world) :=
  let cfg := config_of false in
  s ← Dispatch.on_MapRequest cfg 14 (Some "D") 4 (Some 2)
        (Dispatch.initial_locals false, initial_world false);
  s ← Dispatch.on_MapRequest cfg 12 (Some "B") 2 None s;
  s ← Dispatch.on_MapRequest cfg 13 (Some "C") 3 None s;
  Dispatch.on_UnmapNotify 3 cfg 4 true s.

(** The panels A, D, B, C with A entered and the panel list shown. *)
Definition world_ADBC : world := registry_of [pA; pD; pB; pC] 0.

(** A menu of 100x50 pixels that its program put at (790, 0), tracked as
    the only override window and not moved so far. *)
Definition menu : Window := 50.
Definition menu_attrs : attrs := Attrs 790 0 100 50 0.
Definition screen : attrs := Attrs 0 0 800 600 0.
Definition world_menu : world :=
  set_numoverride 1
    (set_override (<[0%nat := Override menu UNMOVED UNMOVED false]>
                     (override (initial_world false)))
       (initial_world false)).

(** Both tables full. *)
Definition world_full : world :=
  set_numpanels MAXPANELS (set_numoverride MAXOVERRIDE (initial_world false)).
End Examples.

(** * Properties

    ** The command vocabulary *)

Module CommandFacts.
Import Command.

Example commandtostring_quit : commandtostring QUIT = "QUIT".
Proof. reflexivity. Qed.

Example commandtostring_num3 : commandtostring (NUMWINDOW 3) = "NUMWINDOW(3)".
Proof. reflexivity. Qed.

Example commandtostring_num10 :
commandtostring (NUMWINDOW 10) = "NUMWINDOW(110)".
Proof. vm_compute. reflexivity. Qed.

Example stringtocommand_num12 : stringtocommand "NUMWINDOW(12)" = 112.
Proof. vm_compute. reflexivity. Qed.

Example stringtocommand_unknown : stringtocommand "NOSUCH" = -1.
Proof. vm_compute. reflexivity. Qed.

(** The round trip on the rows of the table: every named command and the
  nine numbered selections that have a row. *)
Lemma roundtrip_named cmd : cmd ∈ named_ids -> roundtrip cmd = cmd.
Proof.
unfold named_ids. rewrite !elem_of_cons, elem_of_nil.
intros H. repeat destruct H as [-> | H]; try (vm_compute; reflexivity).
contradiction.
Qed.

Lemma roundtrip_num_row n : 1 <= n <= 9 -> roundtrip (NUMWINDOW n) = NUMWINDOW n.
Proof.
intros H.
assert (n = 1 \/ n = 2 \/ n = 3 \/ n = 4 \/ n = 5 \/ n = 6 \/ n = 7 \/
        n = 8 \/ n = 9) as Hn by lia.
repeat destruct Hn as [-> | Hn]; try subst n; vm_compute; reflexivity.
Qed.

(** C7 (name and id lookup are mutually inverse on the whole vocabulary,
  the numbered selections NUMWINDOW(n), n >= 1, included) fails in the
  code at NUMWINDOW(10): a numbered id without a row of its own is
  printed with the id itself, 110, where the rows of the table print
  the parameter, so the name reads back as NUMWINDOW(110) = 210. *)
Theorem roundtrip_numwindow_10 :
commandtostring (NUMWINDOW 10) = "NUMWINDOW(110)" /\
stringtocommand (commandtostring (NUMWINDOW 10)) = 210 /\
NUMWINDOW 10 = 110.
Proof. vm_compute. repeat split; reflexivity. Qed.
End CommandFacts.

(** ** Override windows *)

Module OverridesFacts.
Import Overrides Spec Examples.

Lemma lookup_Some win0 w i o :
  lookup win0 w = Some (i, o) ->
  take (Z.to_nat (numoverride w)) (override w) !! i = Some o /\ win o = win0.
Proof.
  unfold lookup. intros H. apply list_find_Some in H. tauto.
Qed.

(** Caching a position in the entry found leaves the entry the one found. *)
Lemma lookup_cache win0 w i o a b k :
  lookup win0 w = Some (i, o) ->
  lookup win0
    (set_randcalls k
       (set_override (<[i := Override (win o) a b (ontop o)]> (override w)) w))
  = Some (i, Override (win o) a b (ontop o)).
Proof.
  unfold lookup. cbn. intros H.
  apply list_find_Some in H as (Hi & Hw & Hlt).
  assert (i < length (take (Z.to_nat (numoverride w)) (override w)))%nat as Hlen
    by (eapply lookup_lt_Some; eauto).
  rewrite length_take in Hlen.
  apply list_find_Some. split; [|split].
  - rewrite lookup_take_lt by lia. apply list_lookup_insert_eq. lia.
  - exact Hw.
  - intros j y Hj Hji. apply (Hlt j y); [|exact Hji].
    rewrite lookup_take_lt in Hj by lia.
    rewrite list_lookup_insert_ne in Hj by lia.
    rewrite lookup_take_lt by lia. exact Hj.
Qed.

Lemma lookup_emit win0 evs w : lookup win0 (emit evs w) = lookup win0 w.
Proof. reflexivity. Qed.

(** A call that finds the window at its cached position only asks for the
    attributes. *)
Lemma overrideplace_at_cache rand_ wa rwa win0 w i o :
  lookup win0 w = Some (i, o) -> nx o = x wa -> ny o = y wa ->
  overrideplace rand_ wa rwa win0 w = emit [XGetWindowAttributes win0] w.
Proof.
  intros H Hx Hy. unfold overrideplace. rewrite H.
  rewrite Hx, Hy, !Z.eqb_refl. reflexivity.
Qed.

(** C6: [overrideplace] called twice in a row, the geometry of the window
    changed in between by nothing but the move of the first call, leaves
    the same cached target position (indeed the same table) after both
    calls, and the second call sends no move request: all it sends, for a
    tracked window, is the query of the attributes.  This is the routine
    the loop calls when the position-fix toggle is set. *)
Theorem overrideplace_twice rand_ wa rwa win0 w :
  let w1 := overrideplace rand_ wa rwa win0 w in
  let wa1 := moved win0 (drop (length (trace w)) (trace w1)) wa in
  let w2 := overrideplace rand_ wa1 rwa win0 w1 in
  cached win0 w2 = cached win0 w1 /\
  override w2 = override w1 /\
  filter (fun e => is_move e = true) (drop (length (trace w1)) (trace w2)) = [].
Proof.
  intros. subst w2 wa1.
  assert (w1 = overrideplace rand_ wa rwa win0 w) as E1 by reflexivity.
  clearbody w1. unfold overrideplace in E1.
  destruct (lookup win0 w) as [[i o]|] eqn:Hl.
  2: { subst w1. rewrite drop_all. cbn. unfold overrideplace. rewrite Hl.
       rewrite drop_all. auto. }
  destruct ((nx o =? x wa) && (ny o =? y wa)) eqn:Hc.
  - (* the window is where the cache says *)
    apply andb_true_iff in Hc as [Hx%Z.eqb_eq Hy%Z.eqb_eq].
    subst w1. cbn [trace emit].
    rewrite drop_app_length. cbn [moved foldl].
    erewrite overrideplace_at_cache; [| exact Hl | auto..].
    cbn. rewrite drop_app_length. auto.
  - cbn [randcalls emit] in E1.
    destruct (randombetween rand_ _ (x wa) (x rwa) _) as [nx' k1].
    destruct (randombetween rand_ _ (y wa) (y rwa) k1) as [ny' k2].
    pose proof (lookup_cache win0 (emit [XGetWindowAttributes win0] w)
                  i o nx' ny' k2 Hl) as Hl'.
    cbn [override emit] in Hl'.
    destruct ((nx' =? x wa) && (ny' =? y wa)) eqn:Hc'.
    + (* the position computed is the current one: no move *)
      apply andb_true_iff in Hc' as [Hx%Z.eqb_eq Hy%Z.eqb_eq].
      subst w1. cbn [trace set_randcalls set_override emit].
      rewrite drop_app_length. cbn [moved foldl].
      erewrite overrideplace_at_cache; [| exact Hl' | cbn; auto..].
      cbn. rewrite drop_app_length. auto.
    + (* the window is moved to the position computed *)
      subst w1. cbn [trace set_randcalls set_override emit].
      rewrite <- app_assoc, drop_app_length. cbn [moved foldl app].
      rewrite Z.eqb_refl. cbn [x y].
      erewrite overrideplace_at_cache; [| exact Hl' | cbn; auto..].
      cbn. repeat split.
      rewrite <- !app_assoc. cbn [app].
      change [XGetWindowAttributes win0; XMoveWindow win0 nx' ny';
              XGetWindowAttributes win0]
        with ([XGetWindowAttributes win0; XMoveWindow win0 nx' ny'] ++
              [XGetWindowAttributes win0]).
      rewrite app_assoc, drop_app_length. reflexivity.
Qed.

(** The first call does move the menu that sticks out of the screen; the
    second one, on the geometry after the move, does not. *)
Example overrideplace_menu :
  let w1 := overrideplace (fun _ => 0) menu_attrs screen menu world_menu in
  trace w1 = [XGetWindowAttributes menu; XMoveWindow menu 0 0] /\
  cached menu w1 = Some (0, 0) /\
  moved menu (trace w1) menu_attrs = Attrs 0 0 100 50 0 /\
  trace (overrideplace (fun _ => 0) (Attrs 0 0 100 50 0) screen menu w1)
  = trace w1 ++ [XGetWindowAttributes menu].
Proof. vm_compute. repeat split; reflexivity. Qed.

(** The override half of C8, used for the theorem on both tables. *)
Lemma overrideadd_full win0 w :
  MAXOVERRIDE <= numoverride w ->
  overrideadd win0 w =
  Ret (emit [Log "WARNING: too many override_redirect windows"] w).
Proof.
  intros H. unfold overrideadd.
  destruct (MAXOVERRIDE <=? numoverride w) eqn:E; [reflexivity|].
  apply Z.leb_gt in E. lia.
Qed.
End OverridesFacts.

(** ** Protocol errors *)

Module ErrorFacts.
Import Dispatch Spec.

Lemma benign_swallowed err w :
  benign err -> exists note, on_Error err w = (emit [Log note] w, Swallowed).
Proof.
  unfold benign, stale_requests, on_Error.
  rewrite !elem_of_cons, elem_of_nil.
  intros [[-> H] | [-> ->]].
  - rewrite Z.eqb_refl.
    destruct H as [-> | [-> | [-> | [-> | [-> | []]]]]]; cbn; eauto.
  - cbn. eauto.
Qed.

Lemma swallowed_benign err w : snd (on_Error err w) = Swallowed -> benign err.
Proof.
  unfold benign, stale_requests, on_Error.
  rewrite !elem_of_cons, elem_of_nil.
  destruct (error_code err =? BadWindow) eqn:E1.
  - apply Z.eqb_eq in E1.
    destruct ((request_code err =? X_MapWindow) || _ || _ || _ || _) eqn:E2.
    + intros _. left. split; [exact E1|].
      rewrite !orb_true_iff, !Z.eqb_eq in E2. tauto.
    + cbn [andb].
      destruct ((error_code err =? BadAtom) && _) eqn:E3; [|discriminate].
      intros _. right. rewrite andb_true_iff, !Z.eqb_eq in E3. exact E3.
  - cbn [andb].
    destruct ((error_code err =? BadAtom) && _) eqn:E3; [|discriminate].
    intros _. right. rewrite andb_true_iff, !Z.eqb_eq in E3. exact E3.
Qed.

Lemma forwarded_unchanged err w :
  snd (on_Error err w) = Forwarded -> on_Error err w = (w, Forwarded).
Proof.
  unfold on_Error.
  repeat match goal with
         | |- context [if ?c then _ else _] => destruct c; [discriminate|]
         end.
  reflexivity.
Qed.

Lemma emit_note_changes note w : emit [Log note] w <> w.
Proof.
  destruct w. unfold emit. cbn. intros E. injection E as E.
  rewrite <- (app_nil_r trace0) in E at 2.
  apply app_inv_head in E. discriminate.
Qed.

(** C5: an error event is swallowed, a note being logged and the loop going
    on, if and only if it is a BadWindow error on one of the requests
    X_MapWindow, X_ChangeProperty, X_SetInputFocus, X_ConfigureWindow,
    X_GetWindowAttributes, or a BadAtom error on X_GetAtomName; every other
    error is handed to the default handler, nothing being logged. *)
Theorem error_swallowed_iff err w :
  (snd (on_Error err w) = Swallowed <-> benign err) /\
  (snd (on_Error err w) = Forwarded <-> ~ benign err) /\
  (benign err <-> exists note, fst (on_Error err w) = emit [Log note] w) /\
  (~ benign err <-> on_Error err w = (w, Forwarded)).
Proof.
  assert (snd (on_Error err w) = Swallowed <-> benign err) as H1.
  { split; [apply swallowed_benign|].
    intros H. destruct (benign_swallowed err w H) as [n ->]. reflexivity. }
  assert (snd (on_Error err w) = Forwarded <-> ~ benign err) as H2.
  { split.
    - intros E Hb. apply H1 in Hb. congruence.
    - intros H. destruct (snd (on_Error err w)); [|reflexivity].
      exfalso. apply H, H1. reflexivity. }
  split; [exact H1|]. split; [exact H2|]. split.
  - split.
    + intros H. destruct (benign_swallowed err w H) as [n ->]. eauto.
    + intros [n E]. apply H1.
      destruct (snd (on_Error err w)) eqn:Ed; [reflexivity|].
      apply forwarded_unchanged in Ed. rewrite Ed in E. cbn in E.
      symmetry in E. apply emit_note_changes in E. contradiction.
  - split.
    + intros H. apply forwarded_unchanged, H2, H.
    + intros E. apply H2. rewrite E. reflexivity.
Qed.

Example error_badwindow_map :
  on_Error (ErrorEvent BadWindow X_MapWindow 7) (initial_world false)
  = (emit [Log "NOTE: ignoring a BadWindow error"] (initial_world false),
     Swallowed).
Proof. reflexivity. Qed.

(** A BadWindow error on a request outside the set (X_DestroyWindow, 4)
    and a BadMatch error (8) on X_SetInputFocus are forwarded. *)
Example error_forwarded :
  snd (on_Error (ErrorEvent BadWindow 4 7) (initial_world false)) = Forwarded /\
  snd (on_Error (ErrorEvent 8 X_SetInputFocus 7) (initial_world false))
  = Forwarded.
Proof. split; reflexivity. Qed.
End ErrorFacts.

(** ** The panel registry *)

Module RegistryFacts.
Import Overrides Registry Spec Examples.

(** *** Arrays *)

Lemma aget_Ret {A} (a : list A) i e :
  aget a i = Ret e <-> 0 <= i /\ a !! Z.to_nat i = Some e.
Proof.
  unfold aget. destruct (i <? 0) eqn:E.
  - apply Z.ltb_lt in E. split; [discriminate | lia].
  - apply Z.ltb_ge in E. destruct (a !! Z.to_nat i); cbn.
    + split; [intros [= ->]; auto | intros [_ [= ->]]; reflexivity].
    + split; [discriminate | intros [_ [=]]].
Qed.

Lemma aget_in_range {A} (a : list A) i :
  0 <= i < Z.of_nat (length a) -> exists e, aget a i = Ret e.
Proof.
  intros H. destruct (lookup_lt_is_Some_2 a (Z.to_nat i)) as [e He]; [lia|].
  exists e. apply aget_Ret. split; [lia | exact He].
Qed.


Lemma aset_inv {A} (a t : list A) i e :
  aset a i e = Ret t ->
  0 <= i < Z.of_nat (length a) /\ t = <[Z.to_nat i := e]> a.
Proof.
  unfold aset. destruct (0 <=? i) eqn:E1; [|discriminate].
  destruct (i <? Z.of_nat (length a)) eqn:E2; [|discriminate].
  cbn. intros [= <-]. apply Z.leb_le in E1. apply Z.ltb_lt in E2. auto.
Qed.

(** *** Counting the panels that are not withdrawn *)

Section Counting.
Implicit Types (f g : Z -> bool) (lo : Z) (len : nat).

Lemma count_ext f g lo len :
  (forall i, lo <= i < lo + Z.of_nat len -> f i = g i) ->
  count f lo len = count g lo len.
Proof.
  revert lo. induction len as [|len IH]; intros lo H; [reflexivity|].
  cbn [count]. rewrite (H lo) by lia. f_equal. apply IH. intros i Hi.
  apply H. lia.
Qed.

Lemma count_add f lo a b :
  count f lo (a + b) = (count f lo a + count f (lo + Z.of_nat a) b)%nat.
Proof.
  revert lo. induction a as [|a IH]; intros lo.
  - cbn. f_equal. lia.
  - cbn [count Nat.add]. rewrite IH.
    replace (lo + 1 + Z.of_nat a) with (lo + Z.of_nat (S a)) by lia. lia.
Qed.

Lemma count_shift f c lo len :
  count (fun i => f (i + c)) lo len = count f (lo + c) len.
Proof.
  revert lo. induction len as [|len IH]; intros lo; [reflexivity|].
  cbn [count]. rewrite IH. do 2 f_equal. lia.
Qed.

Lemma count_none f lo len :
  (forall i, lo <= i < lo + Z.of_nat len -> f i = false) -> count f lo len = O.
Proof.
  intros H. rewrite (count_ext f (fun _ => false)) by exact H.
  clear H. revert lo. induction len as [|len IH]; intros lo; [reflexivity|].
  cbn. apply IH.
Qed.

Lemma count_last f lo len :
  count f lo (S len)
  = (count f lo len + if f (lo + Z.of_nat len)%Z then 1 else 0)%nat.
Proof.
  replace (S len) with (len + 1)%nat by lia. rewrite count_add. cbn. lia.
Qed.

(** Counting along one turn around the [n] indices from any start. *)
Lemma count_turn f n s :
  0 <= s < n ->
  count (fun e => f ((s + e) mod n)) 1 (Z.to_nat n) = count f 0 (Z.to_nat n).
Proof.
  intros H.
  replace (Z.to_nat n) with (Z.to_nat (n - 1 - s) + Z.to_nat (s + 1))%nat by lia.
  rewrite count_add.
  rewrite (count_ext _ (fun e => f (e + s)) 1 (Z.to_nat (n - 1 - s))).
  2: { intros i Hi. f_equal. rewrite Z.mod_small by lia. lia. }
  rewrite (count_ext _ (fun e => f (e + (s - n))) _ (Z.to_nat (s + 1))).
  2: { intros i Hi. f_equal.
       replace (s + i) with ((s + i - n) + 1 * n) by lia.
       rewrite Z.mod_add by lia. rewrite Z.mod_small by lia. lia. }
  rewrite !count_shift.
  replace (Z.to_nat (n - 1 - s) + Z.to_nat (s + 1))%nat
    with (Z.to_nat (s + 1) + Z.to_nat (n - 1 - s))%nat by lia.
  rewrite count_add.
  replace (1 + Z.of_nat (Z.to_nat (n - 1 - s)) + (s - n)) with 0 by lia.
  replace (0 + Z.of_nat (Z.to_nat (s + 1))) with (1 + s) by lia.
  lia.
Qed.
End Counting.

(** The number of elements of a list that pass a test, by [count]. *)
Lemma filter_length_count (l : list panel_t) :
  length (filter (fun e => live e = true) l)
  = count (fun i => if i <? 0 then false
                    else match l !! Z.to_nat i with
                         | Some e => live e
                         | None => false
                         end) 0 (length l).
Proof.
  induction l as [|x l IH]; [reflexivity|].
  cbn [length count]. rewrite filter_cons. cbn [lookup list_lookup Z.to_nat].
  change (0 <? 0) with false. cbv iota.
  rewrite <- (count_shift _ 1 0 (length l)).
  rewrite (count_ext _ (fun i => if i <? 0 then false
                                 else match l !! Z.to_nat i with
                                      | Some e => live e
                                      | None => false
                                      end) 0 (length l)).
  2: { intros i Hi.
       destruct (i + 1 <? 0) eqn:E1; [apply Z.ltb_lt in E1; lia|].
       destruct (i <? 0) eqn:E2; [apply Z.ltb_lt in E2; lia|].
       replace (Z.to_nat (i + 1)) with (S (Z.to_nat i)) by lia. reflexivity. }
  rewrite <- IH. change ((x :: l) !! Z.to_nat 0) with (Some x).
  destruct (decide (live x = true)) as [Hx | Hx].
  - rewrite Hx. reflexivity.
  - destruct (live x); [contradiction|]. reflexivity.
Qed.

Lemma panels_length w : wf w -> length (panels w) = Z.to_nat (numpanels w).
Proof.
  intros [Hl Hn]. unfold panels. rewrite length_take. unfold MAXPANELS in *. lia.
Qed.

Lemma live_count_count w :
  wf w -> live_count w = Z.of_nat (count (live_at w) 0 (Z.to_nat (numpanels w))).
Proof.
  intros Hwf. unfold live_count. rewrite filter_length_count.
  rewrite panels_length by exact Hwf. reflexivity.
Qed.

(** *** The loop that skips the withdrawn panels *)


(** An index that the step maps to itself and that holds a withdrawn
    panel: the loop never ends. *)
Lemma skip_withdrawn_stuck fuel rel w e :
  (numpanels w =? 0) = false ->
  Z.rem (activepanel w + numpanels w + rel) (numpanels w) = activepanel w ->
  aget (panel w) (activepanel w) = Ret e -> withdrawn e = true ->
  skip_withdrawn fuel rel w = Timeout.
Proof.
  intros Hn Hr He Hw. induction fuel as [|fuel IH]; [reflexivity|].
  cbn [skip_withdrawn]. unfold MODULEINCREASE. rewrite Hn, Hr. cbn.
  rewrite He. cbn. rewrite Hw.
  replace (set_activepanel (activepanel w) w) with w by (destruct w; reflexivity).
  exact IH.
Qed.


Lemma set_activepanel_twice a b w :
  set_activepanel a (set_activepanel b w) = set_activepanel a w.
Proof. reflexivity. Qed.

Lemma live_at_set_activepanel a w i :
  live_at (set_activepanel a w) i = live_at w i.
Proof. reflexivity. Qed.

(** What the loop reads at a registered index. *)
Lemma aget_registered w i :
  wf w -> 0 <= i < numpanels w ->
  exists e, aget (panel w) i = Ret e /\ live_at w i = negb (withdrawn e).
Proof.
  intros [Hl Hn] Hi.
  destruct (aget_in_range (panel w) i) as [e He]; [lia|].
  exists e. split; [exact He|].
  apply aget_Ret in He as [_ He]. unfold live_at, panels.
  destruct (i <? 0) eqn:E; [apply Z.ltb_lt in E; lia|].
  rewrite lookup_take_lt by lia. rewrite He. reflexivity.
Qed.

(** One step of the loop, for the two directions of [panelswitch]. *)
Lemma step_mod a n rel :
  0 <= a < n -> rel = 1 \/ rel = -1 -> Z.rem (a + n + rel) n = (a + rel) mod n.
Proof.
  intros Ha Hr. rewrite Z.rem_mod_nonneg by lia.
  replace (a + n + rel) with (a + rel + 1 * n) by lia.
  apply Z.mod_add. lia.
Qed.

(** The loop ends on the first panel not withdrawn in its direction. *)
Lemma skip_withdrawn_first fuel rel w t :
  wf w -> 0 <= activepanel w < numpanels w -> rel = 1 \/ rel = -1 ->
  first_live w rel (activepanel w) t -> (Z.to_nat t <= fuel)%nat ->
  skip_withdrawn fuel rel w
  = Ret (set_activepanel ((activepanel w + rel * t) mod numpanels w) w).
Proof.
  revert w t. induction fuel as [|fuel IH]; intros w t Hwf Ha Hr (Ht & Hlive & Hnone) Hf;
    [lia|].
  cbn [skip_withdrawn]. unfold MODULEINCREASE.
  destruct (numpanels w =? 0) eqn:En; [apply Z.eqb_eq in En; lia|].
  cbn [mbind outcome_bind obind]. rewrite step_mod by assumption.
  set (a1 := (activepanel w + rel) mod numpanels w).
  assert (0 <= a1 < numpanels w) as Ha1 by (apply Z.mod_pos_bound; lia).
  destruct (aget_registered w a1 Hwf Ha1) as (e & He & Hle).
  cbn [panel set_activepanel]. rewrite He. cbn [mbind outcome_bind obind].
  destruct (Z.eq_dec t 1) as [-> | Ht1].
  - replace (activepanel w + rel * 1) with (activepanel w + rel) in * by lia.
    fold a1 in Hlive. rewrite Hlive in Hle.
    destruct (withdrawn e); [discriminate|]. reflexivity.
  - assert (live_at w a1 = false) as Hdead.
    { specialize (Hnone 1). replace (activepanel w + rel * 1)
        with (activepanel w + rel) in Hnone by lia. apply Hnone. lia. }
    rewrite Hdead in Hle. destruct (withdrawn e); [|discriminate].
    rewrite (IH _ (t - 1)).
    + cbn [activepanel numpanels set_activepanel]. f_equal.
      rewrite set_activepanel_twice. f_equal. unfold a1.
      rewrite Zplus_mod_idemp_l. f_equal. lia.
    + exact Hwf.
    + exact Ha1.
    + exact Hr.
    + cbn [activepanel numpanels set_activepanel]. split; [lia|]. split.
      * rewrite live_at_set_activepanel. unfold a1.
        rewrite Zplus_mod_idemp_l.
        replace (activepanel w + rel + rel * (t - 1))
          with (activepanel w + rel * t) by lia. exact Hlive.
      * intros e0 He0. rewrite live_at_set_activepanel. unfold a1.
        rewrite Zplus_mod_idemp_l.
        replace (activepanel w + rel + rel * e0)
          with (activepanel w + rel * (e0 + 1)) by lia. apply Hnone. lia.
    + lia.
Qed.

(** The least positive number with a property that some number has. *)
Lemma least_positive (P : Z -> bool) (t0 : Z) :
  1 <= t0 -> P t0 = true ->
  exists t, 1 <= t <= t0 /\ P t = true /\ forall e, 1 <= e < t -> P e = false.
Proof.
  intros H0 HP.
  assert (forall b : nat,
             (forall e, 1 <= e < 1 + Z.of_nat b -> P e = false) \/
             exists t, 1 <= t < 1 + Z.of_nat b /\ P t = true /\
                       forall e, 1 <= e < t -> P e = false) as H.
  { induction b as [|b [IH | IH]].
    - left. intros e He. lia.
    - destruct (P (1 + Z.of_nat b)) eqn:E.
      + right. exists (1 + Z.of_nat b). split; [lia|]. split; [exact E|].
        exact IH.
      + left. intros e He.
        destruct (Z.eq_dec e (1 + Z.of_nat b)) as [-> | Hne]; [exact E|].
        apply IH. lia.
    - right. destruct IH as (t & Ht & HPt & Hlt). exists t.
      split; [lia|]. auto. }
  destruct (H (Z.to_nat t0)) as [Hn | (t & Ht & HPt & Hlt)].
  - exists t0. split; [lia|]. split; [exact HP|]. intros e He. apply Hn. lia.
  - exists t. split; [lia|]. auto.
Qed.

(** From any registered index a live panel is met within [numpanels]
    steps, in either direction, if some registered panel is live. *)
Lemma first_live_exists w rel a i :
  0 <= a < numpanels w -> rel = 1 \/ rel = -1 ->
  0 <= i < numpanels w -> live_at w i = true ->
  exists t, t <= numpanels w /\ first_live w rel a t.
Proof.
  intros Ha Hr Hi Hlive.
  set (n := numpanels w) in *.
  set (t0 := if (rel * (i - a)) mod n =? 0 then n else (rel * (i - a)) mod n).
  assert (1 <= t0 <= n) as Ht0.
  { unfold t0. pose proof (Z.mod_pos_bound (rel * (i - a)) n ltac:(lia)).
    destruct (_ =? 0) eqn:E; [lia|]. apply Z.eqb_neq in E. lia. }
  assert ((a + rel * t0) mod n = i) as Hpos.
  { assert ((rel * t0) mod n = (i - a) mod n) as Hm.
    { unfold t0. destruct (_ =? 0) eqn:E.
      - apply Z.eqb_eq in E.
        replace ((rel * n) mod n) with 0 by (symmetry; apply Z.mod_mul; lia).
        destruct Hr as [-> | ->].
        + rewrite Z.mul_1_l in E. symmetry. exact E.
        + replace (-1 * (i - a)) with (- (i - a)) in E by lia.
          destruct (Z.eq_dec ((i - a) mod n) 0) as [E0 | E0]; [auto|].
          rewrite Z.mod_opp_l_nz in E by lia. 
          pose proof (Z.mod_pos_bound (i - a) n ltac:(lia)). lia.
      - destruct Hr as [-> | ->].
        + rewrite !Z.mul_1_l. apply Z.mod_mod. lia.
        + rewrite Z.mul_mod_idemp_r by lia.
          f_equal. lia. }
    rewrite <- Zplus_mod_idemp_r, Hm, Zplus_mod_idemp_r.
    replace (a + (i - a)) with i by lia. apply Z.mod_small. lia. }
  destruct (least_positive (fun t => live_at w ((a + rel * t) mod n)) t0)
    as (t & Ht & Hlt & Hnone); [lia | rewrite Hpos; exact Hlive |].
  exists t. split; [lia|]. split; [lia|]. split; [exact Hlt | exact Hnone].
Qed.

(** The loop of [panelswitch] ends, wherever it starts among the panels,
    whenever a registered panel is not withdrawn. *)
Lemma skip_withdrawn_terminates rel w i :
  wf w -> 0 <= activepanel w < numpanels w -> rel = 1 \/ rel = -1 ->
  0 <= i < numpanels w -> live_at w i = true ->
  exists a, skip_withdrawn (Z.to_nat (numpanels w)) rel w
            = Ret (set_activepanel a w) /\
            0 <= a < numpanels w /\ live_at w a = true.
Proof.
  intros Hwf Ha Hr Hi Hlive.
  destruct (first_live_exists w rel (activepanel w) i) as (t & Ht & Hfirst);
    try assumption.
  exists ((activepanel w + rel * t) mod numpanels w). split; [|split].
  - apply skip_withdrawn_first; try assumption. lia.
  - apply Z.mod_pos_bound. lia.
  - apply Hfirst.
Qed.


(** *** What the operations leave of the registry *)

Lemma registry_emit evs w : registry (emit evs w) = registry w.
Proof. reflexivity. Qed.

Lemma registry_overrideraise w : registry (overrideraise w) = registry w.
Proof. unfold overrideraise. destruct (raiseoverride w); reflexivity. Qed.

Lemma registry_fields w w' :
  registry w' = registry w ->
  panel w' = panel w /\ numpanels w' = numpanels w /\
  numactive w' = numactive w /\ activepanel w' = activepanel w.
Proof. unfold registry. intros [= -> -> -> ->]. auto. Qed.

Lemma registry_wf w w' : registry w' = registry w -> wf w -> wf w'.
Proof.
  intros H (Hl & Hn). apply registry_fields in H as (Hp & Hnp & _).
  unfold wf. rewrite Hp, Hnp. auto.
Qed.

Lemma registry_live_at w w' i :
  registry w' = registry w -> live_at w' i = live_at w i.
Proof.
  intros H. apply registry_fields in H as (Hp & Hnp & _).
  unfold live_at, panels. rewrite Hp, Hnp. reflexivity.
Qed.


Lemma contents_at_Ret (a : list panel_t) (idx : list Z) :
  (forall i, i ∈ idx -> 0 <= i < Z.of_nat (length a)) ->
  exists l, contents_at a idx = Ret l.
Proof.
  induction idx as [|i idx IH]; intros H; [eexists; reflexivity|].
  destruct (aget_in_range a i) as [e He]; [apply H; left|].
  destruct IH as [l Hl]; [intros j Hj; apply H; right; exact Hj|].
  cbn [contents_at]. rewrite He. cbn. rewrite Hl. cbn. eexists. reflexivity.
Qed.

Lemma clientlistupdate_Ret root w :
  wf w -> -1 <= activepanel w ->
  exists evs, clientlistupdate root w = Ret (emit evs w).
Proof.
  intros [Hl Hn] Ha. unfold clientlistupdate.
  destruct (contents_at_Ret (panel w) (seqZ 0 (numpanels w))) as [l1 H1].
  { intros i Hi. apply elem_of_seqZ in Hi. lia. }
  destruct (contents_at_Ret (panel w)
              ((fun i => Z.rem (activepanel w + 1 + i) (numpanels w)) <$>
               seqZ 0 (numpanels w))) as [l2 H2].
  { intros j Hj. apply list_elem_of_fmap in Hj as (i & -> & Hi).
    apply elem_of_seqZ in Hi.
    rewrite Z.rem_mod_nonneg by lia.
    pose proof (Z.mod_pos_bound (activepanel w + 1 + i) (numpanels w)). lia. }
  rewrite H1. cbn. rewrite H2. cbn. eexists. reflexivity.
Qed.

Lemma panelleave_Ret w :
  wf w -> -1 <= activepanel w < numpanels w ->
  exists evs, panelleave w = Ret (emit evs w).
Proof.
  intros [Hl Hn] Ha. unfold panelleave.
  destruct (activepanel w =? -1) eqn:E.
  - exists []. destruct w; unfold emit; cbn. rewrite app_nil_r. reflexivity.
  - apply Z.eqb_neq in E. destruct (unmaponleave w); cbn.
    + destruct (aget_in_range (panel w) (activepanel w)) as [e He]; [lia|].
      rewrite He. cbn. eexists. reflexivity.
    + exists []. destruct w; unfold emit; cbn. rewrite app_nil_r. reflexivity.
Qed.

(** Entering a panel that is not withdrawn leaves the registry as it is. *)
Lemma panelenter_live root w :
  wf w -> 0 <= activepanel w < numpanels w ->
  live_at w (activepanel w) = true ->
  exists w', panelenter root w = Ret w' /\ registry w' = registry w.
Proof.
  intros Hwf Ha Hlive. unfold panelenter.
  destruct (activepanel w =? -1) eqn:E1; [apply Z.eqb_eq in E1; lia|].
  destruct (numpanels w <=? activepanel w) eqn:E2; [apply Z.leb_le in E2; lia|].
  destruct (aget_registered w (activepanel w) Hwf Ha) as (e & He & Hle).
  rewrite He. cbn [mbind outcome_bind obind].
  rewrite Hlive in Hle. destruct (withdrawn e); [discriminate|].
  cbn [mbind outcome_bind obind].
  destruct (activecontent w =? content e).
  - eexists. split; [reflexivity|]. reflexivity.
  - destruct (clientlistupdate_Ret root
                (set_activewindow (content e)
                   (set_activecontent (content e) w))) as [evs Hc].
    { exact Hwf. }
    { cbn. lia. }
    rewrite Hc. cbn [mbind outcome_bind obind].
    eexists. split; [reflexivity|].
    rewrite registry_emit, registry_overrideraise. reflexivity.
Qed.

(** [panelswitch] moves the active index to the first panel not withdrawn
    in its direction, and leaves the rest of the registry as it is. *)
Lemma panelswitch_first fuel root rel w t :
  wf w -> 0 <= activepanel w < numpanels w -> rel = 1 \/ rel = -1 ->
  first_live w rel (activepanel w) t -> (Z.to_nat t <= fuel)%nat ->
  exists w', panelswitch fuel root rel w = Ret (w', 0) /\
             registry w' = registry
                             (set_activepanel
                                ((activepanel w + rel * t) mod numpanels w) w).
Proof.
  intros Hwf Ha Hr Hfirst Hf. unfold panelswitch.
  destruct (activepanel w =? -1) eqn:E1; [apply Z.eqb_eq in E1; lia|].
  destruct (panelleave_Ret w Hwf) as [evs Hl]; [lia|].
  rewrite Hl. cbn [mbind outcome_bind obind].
  rewrite (skip_withdrawn_first fuel rel (emit evs w) t); try assumption.
  cbn [mbind outcome_bind obind].
  set (a := (activepanel (emit evs w) + rel * t) mod numpanels (emit evs w)).
  destruct (panelenter_live root (set_activepanel a (emit evs w)))
    as (w' & He & Hreg).
  - exact Hwf.
  - cbn. apply Z.mod_pos_bound. lia.
  - apply Hfirst.
  - rewrite He. cbn. exists w'. split; [reflexivity|]. rewrite Hreg. reflexivity.
Qed.


(** *** Cycling through the panels *)

Lemma switches_last fuel root m w :
  switches fuel root (S m) w
  = (wm ← switches fuel root m w;
     '(w', _) ← panelswitch fuel root 1 wm;
     Ret w').
Proof.
  revert w. induction m as [|m IH]; intros w.
  - cbn. destruct (panelswitch fuel root 1 w) as [[w' r]| |]; reflexivity.
  - change (switches fuel root (S (S m)) w)
      with ('(w1, _) ← panelswitch fuel root 1 w; switches fuel root (S m) w1).
    cbn [switches].
    destruct (panelswitch fuel root 1 w) as [[w1 r]| |]; [|reflexivity..].
    cbn [mbind outcome_bind obind]. apply IH.
Qed.

Section Cycle.
Variables (fuel : nat) (root : Window) (w : world) (k : nat).
Hypothesis Hwf : wf w.
Hypothesis Hs : 0 <= activepanel w < numpanels w.
Hypothesis Hlive : live_at w (activepanel w) = true.
Hypothesis Hk : live_count w = Z.of_nat k.
Hypothesis Hfuel : (Z.to_nat (numpanels w) <= fuel)%nat.

Let n := numpanels w.
Let s := activepanel w.

(** The panel that is [e] steps after the start is live. *)
Let ahead (e : Z) : bool := live_at w ((s + e) mod n).

Local Lemma ahead_turn : count ahead 1 (Z.to_nat n) = k.
Proof.
  unfold ahead. rewrite count_turn by exact Hs.
  pose proof (live_count_count w Hwf) as H. fold n in H. lia.
Qed.

Local Lemma ahead_n : ahead n = true.
Proof.
  unfold ahead. replace (s + n) with (s + 1 * n) by lia.
  rewrite Z.mod_add by (subst n; lia). rewrite Z.mod_small by exact Hs.
  exact Hlive.
Qed.

(** Live panels ahead, up to the step [d] that is short of a turn: fewer
    than [k]. *)
Local Lemma ahead_short d :
  (d < Z.to_nat n)%nat -> (count ahead 1 d < k)%nat.
Proof.
  intros Hd. rewrite <- ahead_turn.
  replace (Z.to_nat n) with (d + S (Z.to_nat n - d - 1))%nat by lia.
  rewrite count_add, count_last.
  replace (1 + Z.of_nat d + Z.of_nat (Z.to_nat n - d - 1)) with n by lia.
  rewrite ahead_n. lia.
Qed.

(** After [m] switches, [m <= k], the active index is [d] steps ahead of
    the start, with [m] live panels met on the way, the last one there. *)
Local Lemma switches_ahead m :
  (m <= k)%nat ->
  exists d wm,
    (d <= Z.to_nat n)%nat /\ count ahead 1 d = m /\
    switches fuel root m w = Ret wm /\
    registry wm = registry (set_activepanel ((s + Z.of_nat d) mod n) w) /\
    ((1 <= m)%nat -> ahead (Z.of_nat d) = true).
Proof.
  induction m as [|m IH]; intros Hm.
  - exists O, w. split; [lia|]. split; [reflexivity|]. split; [reflexivity|].
    split; [|lia].
    rewrite Z.add_0_r, Z.mod_small by exact Hs. destruct w; reflexivity.
  - destruct IH as (d & wm & Hd & Hc & Hsw & Hreg & _); [lia|].
    assert (d < Z.to_nat n)%nat as Hdn.
    { destruct (Nat.eq_dec d (Z.to_nat n)) as [-> | Hne]; [|lia].
      rewrite ahead_turn in Hc. lia. }
    set (a := (s + Z.of_nat d) mod n) in *.
    assert (0 <= a < n) as Ha by (apply Z.mod_pos_bound; subst n; lia).
    destruct (least_positive (fun t => ahead (Z.of_nat d + t))
                (n - Z.of_nat d)) as (t & Ht & Hlt & Hnone).
    { lia. }
    { replace (Z.of_nat d + (n - Z.of_nat d)) with n by lia. apply ahead_n. }
    assert (forall e, (a + 1 * e) mod n = (s + (Z.of_nat d + e)) mod n) as Hpos.
    { intros e. unfold a. rewrite Zplus_mod_idemp_l. f_equal. lia. }
    pose proof (registry_fields _ _ Hreg) as (Hp & Hnp & Hna & Hap).
    cbn [panel numpanels numactive activepanel set_activepanel] in Hp, Hnp, Hna, Hap.
    destruct (panelswitch_first fuel root 1 wm t) as (w' & Hsw' & Hreg').
    { eapply registry_wf; [exact Hreg | exact Hwf]. }
    { rewrite Hap, Hnp. exact Ha. }
    { left. reflexivity. }
    { rewrite Hap. unfold first_live. rewrite Hnp. fold n.
      split; [lia|]. split.
      - rewrite (registry_live_at _ _ _ Hreg).
        rewrite Hpos. exact Hlt.
      - intros e He. rewrite (registry_live_at _ _ _ Hreg).
        rewrite Hpos. apply Hnone. exact He. }
    { lia. }
    exists (d + Z.to_nat t)%nat, w'. split; [lia|]. split; [|split; [|split]].
    + rewrite count_add, Hc.
      replace (Z.to_nat t) with (S (Z.to_nat t - 1)) by lia.
      rewrite count_last, count_none.
      * replace (1 + Z.of_nat d + Z.of_nat (Z.to_nat t - 1))
          with (Z.of_nat d + t) by lia.
        rewrite Hlt. lia.
      * intros i Hi.
        replace i with (Z.of_nat d + (i - Z.of_nat d)) by lia.
        apply Hnone. lia.
    + rewrite switches_last, Hsw. cbn [mbind outcome_bind obind].
      rewrite Hsw'. reflexivity.
    + rewrite Hreg'. rewrite Hap, Hnp. fold n. rewrite Hpos.
      unfold registry. cbn [panel numpanels numactive activepanel set_activepanel].
      rewrite Hp, Hnp, Hna. do 2 f_equal. f_equal. lia.
    + intros _. replace (Z.of_nat (d + Z.to_nat t)) with (Z.of_nat d + t) by lia.
      exact Hlt.
Qed.

(** A turn is complete after [k] switches, and not before. *)
Local Lemma switches_turn :
  exists wk, switches fuel root k w = Ret wk /\ registry wk = registry w.
Proof.
  destruct (switches_ahead k) as (d & wk & Hd & Hc & Hsw & Hreg & _); [lia|].
  destruct (Nat.eq_dec d (Z.to_nat n)) as [-> | Hne].
  - exists wk. split; [exact Hsw|]. rewrite Hreg.
    replace (s + Z.of_nat (Z.to_nat n)) with (s + 1 * n) by (subst n; lia).
    rewrite Z.mod_add by (subst n; lia). rewrite Z.mod_small by exact Hs.
    destruct w; reflexivity.
  - pose proof (ahead_short d ltac:(lia)). lia.
Qed.

Local Lemma switches_live m :
  (1 <= m <= k)%nat ->
  exists wm, switches fuel root m w = Ret wm /\
             0 <= activepanel wm < numpanels wm /\
             live_at wm (activepanel wm) = true.
Proof.
  intros Hm.
  destruct (switches_ahead m) as (d & wm & Hd & Hc & Hsw & Hreg & Hl); [lia|].
  exists wm. split; [exact Hsw|].
  pose proof (registry_fields _ _ Hreg) as (Hp & Hnp & Hna & Hap).
  cbn [panel numpanels numactive activepanel set_activepanel] in Hp, Hnp, Hna, Hap.
  rewrite Hap, Hnp. split.
  - apply Z.mod_pos_bound. subst n. lia.
  - rewrite (registry_live_at _ _ _ Hreg). apply Hl. lia.
Qed.
End Cycle.

(** C1: in a registry with at least one panel and [k] panels not withdrawn,
    the active index being that of a registered panel that is not withdrawn
    (the invariant of the registry), [panelswitch] with rel = 1 called [k]
    times returns each time and brings the active index back to where it
    was, the registry being then what it was; after each of the [k] calls
    the active index is that of a panel that is not withdrawn. *)
Theorem switch_cycle fuel root w k :
  wf w -> 0 <= activepanel w < numpanels w ->
  live_at w (activepanel w) = true ->
  live_count w = Z.of_nat k ->
  (Z.to_nat (numpanels w) <= fuel)%nat ->
  (exists wk, switches fuel root k w = Ret wk /\
              activepanel wk = activepanel w /\ registry wk = registry w) /\
  (forall m, (1 <= m <= k)%nat ->
     exists wm, switches fuel root m w = Ret wm /\
                0 <= activepanel wm < numpanels wm /\
                live_at wm (activepanel wm) = true).
Proof.
  intros Hwf Hs Hlive Hk Hfuel. split.
  - destruct (switches_turn fuel root w k) as (wk & Hsw & Hreg); try assumption.
    exists wk. split; [exact Hsw|]. split; [|exact Hreg].
    apply registry_fields in Hreg. tauto.
  - intros m Hm. apply (switches_live fuel root w k); assumption.
Qed.

Lemma switch_cycle_witness :
  wf world_three /\ live_count world_three = 2 /\
  exists wk, switches 3 0 2 world_three = Ret wk /\
             activepanel wk = activepanel world_three /\
             registry wk = registry world_three.
Proof.
  assert (wf world_three) as Hwf by (vm_compute; repeat split; discriminate).
  assert (live_count world_three = Z.of_nat 2) as Hk by (vm_compute; reflexivity).
  split; [exact Hwf|]. split; [exact Hk|].
  apply (switch_cycle 3 0 world_three 2 Hwf).
  - vm_compute. split; [discriminate | reflexivity].
  - vm_compute. reflexivity.
  - exact Hk.
  - vm_compute. lia.
Defined.

(** Two live panels, the first one active: a switch makes the second one
    active, another switch the first one again. *)
Example switch_two :
  (w1 ← switches 2 0 1 (registry_of [pA; pB] 0); Ret (activepanel w1)) = Ret 1 /\
  (w2 ← switches 2 0 2 (registry_of [pA; pB] 0); Ret (activepanel w2)) = Ret 0.
Proof. vm_compute. split; reflexivity. Qed.


(** *** The counter [numactive] *)
























(** The panels A, D, C, where D is the withdrawn dialog of a window B that
    has no panel: destroying A leaves D and C. *)
Example panelremove_destroys_one :
  (r ← panelremove 3 0 true world_three; Ret (panels (fst r), activepanel (fst r)))
  = Ret ([pD; pC], 0).
Proof. vm_compute. reflexivity. Qed.

(** *** Withdrawing a panel always returns *)












Lemma initial_numactive_ok unmap : numactive_ok (initial_world unmap).
Proof. vm_compute. repeat split; discriminate. Qed.



(** *** [panelremove] on the registry D, B, C *)

Lemma world_dialog_first fuel :
  remove_body fuel 1 2 true 0 0 (set_activecontent None_ world_dialog)
  = Ret (World (override world_dialog) 0 true (panel world_dialog) 2 2 0 None_
               false 2 [XDestroyWindow 14] 0, 0).
Proof. vm_compute. reflexivity. Qed.

Lemma world_dialog_mid_loop fuel :
  skip_withdrawn fuel (-1) world_dialog_mid = Timeout.
Proof.
  apply skip_withdrawn_stuck with (e := pD); vm_compute; reflexivity.
Qed.

Lemma world_dialog_second fuel :
  remove_body fuel 1 2 true 1 0
    (World (override world_dialog) 0 true (panel world_dialog) 2 2 0 None_
           false 2 [XDestroyWindow 14] 0)
  = Timeout.
Proof.
  unfold remove_body.
  replace (aget _ 1) with (Ret pB) by (vm_compute; reflexivity).
  cbn -[skip_withdrawn world_dialog].
  change (set_numpanels _ _) with world_dialog_mid.
  change (0 <? 2 - 1) with true. cbv iota.
  rewrite world_dialog_mid_loop. reflexivity.
Qed.

(** [panelremove] from the test of its argument on. *)
Lemma panelremove_in_range fuel pn destroy w e :
  0 <= pn < numpanels w -> aget (panel w) pn = Ret e ->
  panelremove fuel pn destroy w =
  (let w1 := if content e =? activecontent w
             then set_activecontent None_ w else w in
   '(w2, _) ← remove_loop fuel pn (content e) destroy
                (Z.to_nat (numpanels w1)) 0 0 w1;
   Ret (if numactive w2 =? 0 then set_activepanel (-1) w2 else w2, 0)).
Proof.
  intros H He. unfold panelremove.
  destruct (pn <? 0) eqn:E1; [apply Z.ltb_lt in E1; lia|].
  destruct (numpanels w <=? pn) eqn:E2; [apply Z.leb_le in E2; lia|].
  cbn [orb]. rewrite He. reflexivity.
Qed.

(** C10 (the loops that skip the withdrawn panels end whenever a panel is
    not withdrawn, numactive > 0) fails in the code for the loop of
    [panelremove]: destroying B in the registry D, B, C, where the dialog D
    of B is withdrawn, the loop is reached for B under its guard
    [activepanel == j && numactive > 0], the panel C being live, with
    [numpanels] already decreased to 1 over the array not yet compacted,
    and it steps from index 0 to index 0, the withdrawn D, for ever. *)
Theorem skip_withdrawn_hangs_in_panelremove :
  forall fuel,
    live_count world_dialog = 2 /\
    (activepanel world_dialog_mid =? 0) && (0 <? numactive world_dialog_mid)
    = true /\
    skip_withdrawn fuel (-1) world_dialog_mid = Timeout /\
    remove_loop fuel 1 2 true 3 0 0 (set_activecontent None_ world_dialog)
    = Timeout.
Proof.
  intros fuel. split; [vm_compute; reflexivity|].
  split; [vm_compute; reflexivity|].
  split; [apply world_dialog_mid_loop|].
  cbn [remove_loop]. rewrite world_dialog_first. cbn [mbind outcome_bind obind].
  change (0 + 1) with 1. rewrite world_dialog_second. reflexivity.
Qed.

(** C4 (destroying the panel pn removes, in that call, the panel and the
    panels it leads, and no other) fails in the code on the registry D, B,
    C with B entered and its dialog D withdrawn: the call that is to
    destroy B, index 1, never returns, whatever the fuel. *)
Theorem panelremove_destroy_hangs :
  forall fuel, panelremove fuel 1 true world_dialog = Timeout.
Proof.
  intros fuel.
  rewrite panelremove_in_range with (e := pB);
    [| change (numpanels world_dialog) with 3; lia | vm_compute; reflexivity].
  change (content pB =? activecontent world_dialog) with true. cbv iota zeta.
  change (Z.to_nat (numpanels (set_activecontent None_ world_dialog)))
    with 3%nat.
  cbn [remove_loop]. rewrite world_dialog_first. cbn [mbind outcome_bind obind].
  change (0 + 1) with 1. rewrite world_dialog_second. reflexivity.
Qed.
End RegistryFacts.

(** ** Events and commands *)

Module DispatchFacts.
Import Command Overrides Registry Dispatch Spec Examples.
Import OverridesFacts RegistryFacts.

Lemma paneladd_full p title_ window wa leader0 w :
  MAXPANELS <= numpanels w ->
  paneladd p title_ window wa leader0 w = Ret (emit [full_panels_note] w, -1).
Proof.
  intros H. unfold paneladd.
  destruct (MAXPANELS <=? numpanels w) eqn:E; [reflexivity|].
  apply Z.leb_gt in E. lia.
Qed.

(** C8: with the override table full, [overrideadd] logs a warning and
    changes nothing else, and so does the event CreateNotify that calls it;
    with the panel array full, [paneladd] logs the error, returns -1 and
    changes nothing else, and the event MapRequest that calls it ends
    there.  Both events return with the variables of the loop as they
    were, [run] among them: the program goes on. *)
Theorem capacity_exhaustion cfg p title_ window tran leader0 l w :
  (MAXOVERRIDE <= numoverride w ->
   overrideadd window w = Ret (emit [full_override_note] w) /\
   override (emit [full_override_note] w) = override w /\
   numoverride (emit [full_override_note] w) = numoverride w /\
   on_CreateNotify window true (l, w) = Ret (l, emit [full_override_note] w)) /\
  (MAXPANELS <= numpanels w ->
   paneladd p title_ window (rwa cfg) leader0 w
   = Ret (emit [full_panels_note] w, -1) /\
   panel (emit [full_panels_note] w) = panel w /\
   numpanels (emit [full_panels_note] w) = numpanels w /\
   numactive (emit [full_panels_note] w) = numactive w /\
   activepanel (emit [full_panels_note] w) = activepanel w /\
   on_MapRequest cfg p title_ window tran (l, w)
   = Ret (l, emit [full_panels_note] w)).
Proof.
  split; intros H.
  - pose proof (overrideadd_full window w H) as E.
    repeat split; [exact E|].
    unfold on_CreateNotify. rewrite E. reflexivity.
  - repeat split; [apply paneladd_full; exact H|].
    unfold on_MapRequest. rewrite paneladd_full by exact H. reflexivity.
Qed.

Lemma capacity_exhaustion_witness :
  MAXOVERRIDE <= numoverride world_full /\
  MAXPANELS <= numpanels world_full /\
  on_CreateNotify 7 true (initial_locals false, world_full)
  = Ret (initial_locals false, emit [full_override_note] world_full) /\
  on_MapRequest (config_of false) 8 None 7 None (initial_locals false, world_full)
  = Ret (initial_locals false, emit [full_panels_note] world_full).
Proof.
  assert (MAXOVERRIDE <= numoverride world_full) as H1 by (vm_compute; discriminate).
  assert (MAXPANELS <= numpanels world_full) as H2 by (vm_compute; discriminate).
  pose proof (capacity_exhaustion (config_of false) 8 None 7 None None_
                (initial_locals false) world_full) as [Ho Hp].
  split; [exact H1|]. split; [exact H2|]. split.
  - apply Ho. exact H1.
  - apply Hp. exact H2.
Defined.

(** The event ConfigureNotify calls [overrideplace] when, and only when,
    the position-fix toggle is set. *)
Lemma configure_notify_fix rand_ cfg wa window l w :
  on_ConfigureNotify rand_ cfg wa window (l, w)
  = if overridefix l
    then (l, overrideplace rand_ wa (rwa cfg) window w) else (l, w).
Proof. reflexivity. Qed.

(** The panel list gives way to the confirm dialog when the command is
    CONFIRMWINDOW. *)
Example confirmwindow_hides_panel_list :
  commands 1 (config_of true) [PANELWINDOW; CONFIRMWINDOW]
    (initial_locals false, registry_of [pA] 0)
  = Ret (Locals false false true 0 0 false true false,
         emit [XMapWindow 101; XUnmapWindow 102; XUnmapWindow 103;
               XGrabKeyboard;
               XUnmapWindow 101; XUnmapWindow 102; XMapWindow 103;
               XGrabKeyboard]
           (registry_of [pA] 0)).
Proof. vm_compute. reflexivity. Qed.

(** C2 (at most one of the flags showpanel, showprogs, showconfirm is set,
    the command QUIT that opens the confirm dialog clearing the other two
    as well) fails in the code: with confirmquit set and a panel open, the
    command QUIT given while the panel list is shown sets showconfirm and
    leaves showpanel set; both windows are then mapped. *)
Theorem quit_keeps_panel_list :
  commands 1 (config_of true) [PANELWINDOW; QUIT]
    (initial_locals false, registry_of [pA] 0)
  = Ret (Locals true false true 0 0 false true false,
         emit [XMapWindow 101; XUnmapWindow 102; XUnmapWindow 103;
               XGrabKeyboard;
               XMapWindow 103; XGrabKeyboard;
               XMapWindow 101; XUnmapWindow 102; XMapWindow 103;
               XGrabKeyboard]
           (registry_of [pA] 0)).
Proof. vm_compute. reflexivity. Qed.
(** *** Numbered selections *)

Lemma toggle_other cfg l command :
  command <> PANELWINDOW -> command <> PROGSWINDOW ->
  command <> CONFIRMWINDOW -> toggle cfg l command = command.
Proof.
  intros H1 H2 H3. unfold toggle.
  apply Z.eqb_neq in H1, H2, H3. rewrite H1. cbn [andb].
  rewrite H1. cbn [andb]. rewrite H2. cbn [andb]. rewrite H3. reflexivity.
Qed.

Lemma command_step_ok fuel cfg s :
  command_step fuel cfg OKWINDOW s = execute_show fuel cfg OKWINDOW s.
Proof. reflexivity. Qed.

Lemma command_step_numwindow fuel cfg i s :
  1 <= i ->
  command_step fuel cfg (NUMWINDOW i) s
  = ('(s, e) ← numbered fuel cfg (NUMWINDOW i) s;
     match e with
     | Finished => execute_show fuel cfg OKWINDOW s
     | Continue c => Ret (s, Continue c)
     end).
Proof.
  intros Hi. unfold command_step.
  rewrite toggle_other by (unfold NUMWINDOW, PANELWINDOW, PROGSWINDOW,
                            CONFIRMWINDOW; lia).
  destruct (NUMWINDOW 1 <=? NUMWINDOW i) eqn:E; [reflexivity|].
  apply Z.leb_gt in E. unfold NUMWINDOW in E. lia.
Qed.

(** The step of the loop of [panelswitch] that lands on a live panel. *)
Lemma skip_withdrawn_direct fuel rel w :
  wf w ->
  0 <= Z.rem (activepanel w + numpanels w + rel) (numpanels w) < numpanels w ->
  live_at w (Z.rem (activepanel w + numpanels w + rel) (numpanels w)) = true ->
  skip_withdrawn (S fuel) rel w
  = Ret (set_activepanel
           (Z.rem (activepanel w + numpanels w + rel) (numpanels w)) w).
Proof.
  intros Hwf Ha Hlive. cbn [skip_withdrawn]. unfold MODULEINCREASE.
  destruct (numpanels w =? 0) eqn:En; [apply Z.eqb_eq in En; lia|].
  cbn [mbind outcome_bind obind].
  destruct (aget_registered w _ Hwf Ha) as (e & He & Hle).
  cbn [panel set_activepanel]. rewrite He. cbn [mbind outcome_bind obind].
  rewrite Hlive in Hle. destruct (withdrawn e); [discriminate|]. reflexivity.
Qed.

Lemma panelswitch_direct fuel root rel w :
  wf w -> 0 <= activepanel w < numpanels w ->
  0 <= Z.rem (activepanel w + numpanels w + rel) (numpanels w) < numpanels w ->
  live_at w (Z.rem (activepanel w + numpanels w + rel) (numpanels w)) = true ->
  exists w', panelswitch (S fuel) root rel w = Ret (w', 0) /\
             registry w'
             = registry (set_activepanel
                           (Z.rem (activepanel w + numpanels w + rel)
                                  (numpanels w)) w).
Proof.
  intros Hwf Ha Hr Hlive. unfold panelswitch.
  destruct (activepanel w =? -1) eqn:E1; [apply Z.eqb_eq in E1; lia|].
  destruct (panelleave_Ret w Hwf) as [evs Hl]; [lia|].
  rewrite Hl. cbn [mbind outcome_bind obind].
  rewrite (skip_withdrawn_direct fuel rel (emit evs w)); try assumption.
  cbn [mbind outcome_bind obind].
  cbn [activepanel numpanels emit].
  set (a := Z.rem (activepanel w + numpanels w + rel) (numpanels w)) in *.
  destruct (panelenter_live root (set_activepanel a (emit evs w)))
    as (w' & He & Hreg); try assumption.
  rewrite He. cbn. exists w'. split; [reflexivity|]. rewrite Hreg. reflexivity.
Qed.

Lemma count_all f lo len :
  (forall i, lo <= i < lo + Z.of_nat len -> f i = true) -> count f lo len = len.
Proof.
  revert lo. induction len as [|len IH]; intros lo H; [reflexivity|].
  cbn [count]. rewrite (H lo) by lia. rewrite IH; [reflexivity|].
  intros i Hi. apply H. lia.
Qed.

(** With no panel withdrawn, the panels before the active one are as many
    as its index says. *)
Lemma live_before_all w :
  wf w -> 0 <= activepanel w < numpanels w -> all_live w ->
  live_before w = activepanel w.
Proof.
  intros [Hl Hn] Ha Hall. unfold live_before. rewrite filter_length_count.
  rewrite length_take. unfold MAXPANELS in *.
  rewrite count_all; [lia|].
  intros i Hi. destruct (i <? 0) eqn:E; [apply Z.ltb_lt in E; lia|].
  specialize (Hall i ltac:(lia)). unfold live_at, panels in Hall. rewrite E in Hall.
  rewrite lookup_take_lt in Hall by lia. rewrite lookup_take_lt by lia.
  exact Hall.
Qed.

(** C3, amended.  With the program list shown, NUMWINDOW(i), 1 <= i <= n
    for the n programs of the list, sets the selection to the entry i - 1
    and then does what OKWINDOW does with the selection there.  With the
    panel list shown and no panel withdrawn, NUMWINDOW(i), 1 <= i, makes
    the panel of index (i - 1) mod n active, n being the number of
    panels, which is the entry i - 1 when i <= n, and then does what
    OKWINDOW does: the list closes.  The code has no test of i against
    n. *)
Theorem numwindow_selects fuel cfg i :
  (forall l w,
      showpanel l = false -> showprogs l = true ->
      1 <= i <= numprograms cfg ->
      numprograms cfg <= Z.of_nat (length (programs cfg)) ->
      command_step fuel cfg (NUMWINDOW i) (l, w)
      = command_step fuel cfg OKWINDOW (set_progselected (i - 1) l, w)) /\
  (forall l w,
      showpanel l = true -> showprogs l = false ->
      wf w -> 0 <= activepanel w < numpanels w -> all_live w -> 1 <= i ->
      exists w1,
        panelswitch (S fuel) (root cfg)
          (NUMWINDOW i - NUMWINDOW 1 - live_before w) w = Ret (w1, 0) /\
        registry w1
        = registry (set_activepanel ((i - 1) mod numpanels w) w) /\
        (i <= numpanels w -> (i - 1) mod numpanels w = i - 1) /\
        command_step (S fuel) cfg (NUMWINDOW i) (l, w)
        = command_step (S fuel) cfg OKWINDOW
            (l, emit [XClearArea (panelwindow cfg);
                      XRaiseWindow (panelwindow cfg)] w1) /\
        command_step (S fuel) cfg (NUMWINDOW i) (l, w)
        = Ret (show_lists cfg
                 (set_showpanel false l,
                  emit [XUnmapWindow (panelwindow cfg); XUngrabKeyboard]
                    (emit [XClearArea (panelwindow cfg);
                           XRaiseWindow (panelwindow cfg)] w1)),
               Finished)).
Proof.
  split.
  - intros l w Hp Hg Hi Hlen.
    rewrite command_step_numwindow by lia. rewrite command_step_ok.
    unfold numbered. rewrite Hp, Hg. cbn [andb mbind outcome_bind obind].
    replace (NUMWINDOW i - NUMWINDOW 1) with (i - 1) by (unfold NUMWINDOW; lia).
    destruct (aget_in_range (programs cfg) (i - 1)) as [e He]; [lia|].
    cbn [progselected set_progselected]. rewrite He. reflexivity.
  - intros l w Hp Hg Hwf Ha Hall Hi.
    rewrite live_before_all by assumption.
    replace (NUMWINDOW i - NUMWINDOW 1 - activepanel w)
      with (i - 1 - activepanel w) by (unfold NUMWINDOW; lia).
    assert (Z.rem (activepanel w + numpanels w + (i - 1 - activepanel w))
                  (numpanels w) = (i - 1) mod numpanels w) as Hrem.
    { rewrite Z.rem_mod_nonneg by lia.
      replace (activepanel w + numpanels w + (i - 1 - activepanel w))
        with (i - 1 + 1 * numpanels w) by lia.
      apply Z.mod_add. lia. }
    assert (0 <= (i - 1) mod numpanels w < numpanels w) as Hin
      by (apply Z.mod_pos_bound; lia).
    destruct (panelswitch_direct fuel (root cfg) (i - 1 - activepanel w) w)
      as (w1 & Hsw & Hreg); try assumption.
    { rewrite Hrem. exact Hin. }
    { rewrite Hrem. apply Hall. exact Hin. }
    rewrite Hrem in Hreg. exists w1. split; [exact Hsw|]. split; [exact Hreg|].
    split; [intros Hle; apply Z.mod_small; lia|].
    assert (command_step (S fuel) cfg (NUMWINDOW i) (l, w)
            = execute_show (S fuel) cfg OKWINDOW
                (l, emit [XClearArea (panelwindow cfg);
                          XRaiseWindow (panelwindow cfg)] w1)) as Hstep.
    { rewrite command_step_numwindow by lia.
      unfold numbered. rewrite Hp, Hg.
      destruct (activepanel w =? -1) eqn:E; [apply Z.eqb_eq in E; lia|].
      cbn [andb]. rewrite live_before_all by assumption.
      replace (NUMWINDOW i - NUMWINDOW 1 - activepanel w)
        with (i - 1 - activepanel w) by (unfold NUMWINDOW; lia).
      rewrite Hsw. reflexivity. }
    split; [rewrite Hstep; reflexivity|].
    rewrite Hstep. unfold execute_show, execute.
    change (OKWINDOW =? NEXTPANEL) with false.
    cbn -[show_lists]. unfold do_hide_ok. rewrite Hp. reflexivity.
Qed.

Lemma numwindow_selects_witness :
  command_step 1 (config_of false) (NUMWINDOW 2) (progs_list, world_AB)
  = command_step 1 (config_of false) OKWINDOW
      (set_progselected 1 progs_list, world_AB) /\
  exists w1,
    panelswitch 1 100 (NUMWINDOW 2 - NUMWINDOW 1 - live_before world_AB)
      world_AB = Ret (w1, 0) /\
    registry w1 = registry (set_activepanel 1 world_AB).
Proof.
  destruct (numwindow_selects 0 (config_of false) 2) as [Hprogs Hpanel].
  split.
  - apply (Hprogs progs_list world_AB); vm_compute; try reflexivity.
    + split; discriminate.
    + discriminate.
  - destruct (Hpanel panel_list world_AB) as (w1 & Hsw & Hreg & _).
    + reflexivity.
    + reflexivity.
    + vm_compute. repeat split; discriminate.
    + vm_compute. split; [discriminate | reflexivity].
    + intros i Hi. change (numpanels world_AB) with 2 in Hi.
      assert (i = 0 \/ i = 1) as [-> | ->] by lia; vm_compute; reflexivity.
    + lia.
    + exists w1. split; [exact Hsw | exact Hreg].
Defined.

(** C3 as stated fails: the panel list shows two entries and NUMWINDOW(4)
    is no no-op: it makes the panel B active, where A was, and closes the
    list. *)
Lemma numwindow_beyond_entries :
  entries_panels world_AB = 2 /\
  (showpanel panel_list, activepanel world_AB) = (true, 0) /\
  (s ← command_loop 2 (config_of false) (NUMWINDOW 4) (panel_list, world_AB);
   Ret (showpanel (fst s), activepanel (snd s))) = Ret (false, 1).
Proof. vm_compute. repeat split; reflexivity. Qed.

(** With the panel list shown and no panel open, a numbered selection
    keeps the loop over the commands turning. *)
Lemma numwindow_no_panel fuel cfg i l w :
  showpanel l = true -> activepanel w = -1 -> 1 <= i ->
  command_loop fuel cfg (NUMWINDOW i) (l, w) = Timeout.
Proof.
  intros Hp Ha Hi. induction fuel as [|fuel IH].
  - cbn. destruct (NUMWINDOW i =? NOCOMMAND) eqn:E; [|reflexivity].
    apply Z.eqb_eq in E. unfold NUMWINDOW, NOCOMMAND in E. lia.
  - cbn [command_loop].
    destruct (NUMWINDOW i =? NOCOMMAND) eqn:E.
    { apply Z.eqb_eq in E. unfold NUMWINDOW, NOCOMMAND in E. lia. }
    rewrite command_step_numwindow by lia. unfold numbered.
    rewrite Hp, Ha. cbn [andb Z.eqb mbind outcome_bind obind].
    change (-1 =? -1) with true. cbv iota.
    cbn [mbind outcome_bind obind]. exact IH.
Qed.

(** In the program list of two entries, NUMWINDOW(3) selects the entry
    after the last one, whose title is NULL, and OKWINDOW compares it. *)
Example numwindow_beyond_programs :
  command_loop 2 (config_of false) (NUMWINDOW 3) (progs_list, world_AB) = Fault.
Proof. vm_compute. reflexivity. Qed.

(** With a withdrawn panel among them, the list shows A, B, C, and
    NUMWINDOW(3) enters B, the second entry: the difference of the entries
    is taken as a step over the array, the withdrawn D counted in. *)
Example numwindow_over_withdrawn :
  entries_panels world_ADBC = 3 /\
  (s ← command_loop 4 (config_of false) (NUMWINDOW 3) (panel_list, world_ADBC);
   Ret (activepanel (snd s), activecontent (snd s))) = Ret (2, content pB).
Proof. vm_compute. split; reflexivity. Qed.

(** The registry D, B, C with B entered is what the session leaves, and the
    window B being destroyed then, the event DestroyNotify does not come to
    an end. *)
Example session_dialog_registry :
  (s ← session_dialog; Ret (registry (snd s), activecontent (snd s)))
  = Ret (registry world_dialog, activecontent world_dialog).
Proof. vm_compute. reflexivity. Qed.

Example session_dialog_destroy :
  (s ← session_dialog; on_DestroyNotify 2000 (config_of false) 2 12 s) = Timeout.
Proof. vm_compute. reflexivity. Qed.
End DispatchFacts.
